(** * Falcon BMS performance monitor

    A shallow embedding of [falcon_bms_monitor.py]: the bottleneck
    classifier ([PerformanceMonitor._analyze_bottleneck]), the bounded
    history ([collections.deque] with [maxlen]), the windowed analysis
    ([get_bottleneck_analysis]) and the recommendation generator
    ([_get_recommendations]).

    Modelling conventions.
    - Python [float] values are exact rationals ([Q]); results that the
      program compares or prints are stated up to [Qeq].  Infinities and
      NaN are therefore outside the model, and so is rounding.
    - Python exceptions are explicit: every operation of the program that
      can raise ([max] of an empty sequence, subscripting, division)
      returns in the error monad [Py.result].
    - A [dict] is an association list in insertion order, because the
      program iterates over [values()] and [items()].
    - A [datetime] is the number of microseconds since its least value,
      0001-01-01 00:00:00; subtracting a [timedelta] raises
      [OverflowError] when the interval or the result is out of range.
    - Objects are values, except where a function is read for what it
      writes: the recommendation generator is also given on a store of
      objects.
    - One thread at a time: a call sees the history as it is when the
      call begins. *)

From Stdlib Require Import ZArith QArith Qround List Sorted String Bool Lia Lqa.
From Stdlib Require Import DecimalString.
From Stdlib Require Import Ascii Permutation.
Import ListNotations.

Local Open Scope string_scope.
Local Open Scope list_scope.
Local Open Scope Q_scope.

(** ** The fragment of the Python runtime the program uses *)

Module Py.

Inductive exn : Type :=
| ValueError
| KeyError
| IndexError
| ZeroDivisionError
| OverflowError.

Inductive result (A : Type) : Type :=
| Ok (a : A)
| Raise (e : exn).

Arguments Ok {A} a.
Arguments Raise {A} e.

Definition bind {A B : Type} (c : result A) (k : A -> result B) : result B :=
  match c with
  | Ok a => k a
  | Raise e => Raise e
  end.

(** Comparisons of floats. *)
Definition gt (a b : Q) : bool := negb (Qle_bool a b).
Definition lt (a b : Q) : bool := negb (Qle_bool b a).

(** [a / b] with a divisor that is not a literal. *)
Definition truediv (a b : Q) : result Q :=
  if Qeq_bool b 0 then Raise ZeroDivisionError else Ok (a / b).

(** Truth value of a sequence: [if xs:]. *)
Definition truthy {A : Type} (l : list A) : bool :=
  match l with
  | [] => false
  | _ :: _ => true
  end.

(** [max(iterable, key=key)]: the first maximal element; [ValueError] on
    an empty iterable. *)
Fixpoint max_from {A : Type} (key : A -> Q) (best : A) (l : list A) : A :=
  match l with
  | [] => best
  | y :: l' => max_from key (if gt (key y) (key best) then y else best) l'
  end.

Definition max_by {A : Type} (key : A -> Q) (l : list A) : result A :=
  match l with
  | [] => Raise ValueError
  | x :: l' => Ok (max_from key x l')
  end.

Definition max (l : list Q) : result Q := max_by (fun x => x) l.

(** [sum(iterable)]: starts from the integer 0 and adds left to right. *)
Definition sum (l : list Q) : Q := fold_left Qplus l 0.

(** Dictionaries keyed by strings. *)
Definition dict (V : Type) : Type := list (string * V).

Fixpoint get {V : Type} (d : dict V) (k : string) : option V :=
  match d with
  | [] => None
  | (k', v) :: d' => if String.eqb k k' then Some v else get d' k
  end.

(** [d[k]] *)
Definition getitem {V : Type} (d : dict V) (k : string) : result V :=
  match get d k with
  | Some v => Ok v
  | None => Raise KeyError
  end.

(** [d[k] = v]: an existing key keeps its position, a new key goes last. *)
Fixpoint setitem {V : Type} (d : dict V) (k : string) (v : V) : dict V :=
  match d with
  | [] => [(k, v)]
  | (k', v') :: d' =>
      if String.eqb k k' then (k', v) :: d' else (k', v') :: setitem d' k v
  end.

(** [d[k] += x] on a plain dict. *)
Definition iadd (d : dict Q) (k : string) (x : Q) : result (dict Q) :=
  bind (getitem d k) (fun v => Ok (setitem d k (v + x))).

(** [d[k]] on a [defaultdict]: a missing key yields the default. *)
Definition getdefault {V : Type} (dflt : V) (d : dict V) (k : string) : V :=
  match get d k with
  | Some v => v
  | None => dflt
  end.

Definition values {V : Type} (d : dict V) : list V := map snd d.
Definition keys {V : Type} (d : dict V) : list string := map fst d.
Definition items {V : Type} (d : dict V) : list (string * V) := d.

(** [collections.deque(maxlen=n)]. *)
Record deque (A : Type) : Type := mkDeque {
  maxlen : nat;
  elems : list A
}.

Arguments mkDeque {A} maxlen elems.
Arguments maxlen {A} d.
Arguments elems {A} d.

Definition deque_new {A : Type} (n : nat) : deque A := mkDeque n [].

(** [d.append(x)]: the element is added on the right; when the deque then
    holds more than [maxlen] elements, the leftmost one is discarded. *)
Definition deque_append {A : Type} (d : deque A) (x : A) : deque A :=
  let grown := (elems d ++ [x])%list in
  mkDeque (maxlen d)
          (if (maxlen d <? List.length grown)%nat then tl grown else grown).

(** [s[-1]] *)
Definition last_item {A : Type} (l : list A) : result A :=
  match rev l with
  | [] => Raise IndexError
  | x :: _ => Ok x
  end.

(** [f"{x:.0f}"]: the nearest integer, halves to the even neighbour, in
    decimal; a negative value that rounds to zero keeps its sign. *)
Definition round_half_even (x : Q) : Z :=
  let n := Qfloor x in
  let r := x - inject_Z n in
  if lt r (1 # 2) then n
  else if gt r (1 # 2) then (n + 1)%Z
  else if Z.even n then n else (n + 1)%Z.

Definition format_0f (x : Q) : string :=
  let n := round_half_even x in
  if (n =? 0)%Z && lt x 0 then "-0"
  else NilZero.string_of_int (Z.to_int n).

(** [datetime.max], 9999-12-31 23:59:59.999999, in microseconds since
    [datetime.min]: 3652059 days less one microsecond. *)
Definition datetime_max : Z := (3652059 * 86400 * 1000000 - 1)%Z.

(** [timedelta(seconds=n)] for an integer [n], in microseconds.  The
    interval is normalised to days and a remainder; more than 999999999
    days either way raise. *)
Definition timedelta_seconds (n : Z) : result Z :=
  if (Z.abs (n / 86400) <=? 999999999)%Z then Ok (n * 1000000)%Z
  else Raise OverflowError.

(** [t - d] for a datetime [t] and a timedelta [d]: the result must be a
    datetime again. *)
Definition datetime_sub (t d : Z) : result Z :=
  let r := (t - d)%Z in
  if ((0 <=? r) && (r <=? datetime_max))%Z then Ok r
  else Raise OverflowError.

End Py.

Import Py.

Notation "x <- c ;; k" := (Py.bind c (fun x => k))
  (at level 61, c at next level, right associativity).

(** ** Data model *)

(** [@dataclass SystemMetrics] *)
Record SystemMetrics : Type := mkSystemMetrics {
  timestamp : Z;
  cpu_percent : Q;
  cpu_per_core : list Q;
  memory_percent : Q;
  memory_used_gb : Q;
  memory_available_gb : Q;
  gpu_utilization : Q;
  gpu_memory_percent : Q;
  gpu_memory_used_gb : Q;
  gpu_temperature : Q;
  falcon_bms_cpu : Q;
  falcon_bms_memory_mb : Q;
  bottleneck : string;
  bottleneck_score : dict Q
}.

(** The attributes of a [PerformanceMonitor] instance.  [monitor_thread]
    is a thread handle and carries no data. *)
Record PerformanceMonitor : Type := mkPerformanceMonitor {
  sample_interval : Q;
  history_size : nat;
  metrics_history : deque SystemMetrics;
  running : bool;
  thresholds : dict Q;
  gpu_available : bool
}.

(** [_init_gpu_monitoring] returns the module-level flag. *)
Definition _init_gpu_monitoring (gputil_available : bool) : bool :=
  gputil_available.

(** "Bottleneck thresholds": the dict literal of [__init__]. *)
Definition init_thresholds : dict Q :=
  [("cpu_high", 85.0); ("memory_high", 85.0);
   ("gpu_high", 90.0); ("gpu_memory_high", 85.0)].

(** The default arguments of [__init__]. *)
Definition default_sample_interval : Q := 1.0.
Definition default_history_size : nat := 300.

(** [PerformanceMonitor.__init__]; [gputil_available] is the module-level
    flag [GPUTIL_AVAILABLE], which [_get_gpu_metrics] reads as well.  A
    negative [history_size] makes [deque] raise in the constructor, so no
    instance exists for it: the capacity is a natural number. *)
Definition __init__ (sample_interval : Q) (history_size : nat)
    (gputil_available : bool) : PerformanceMonitor :=
  mkPerformanceMonitor sample_interval history_size (deque_new history_size)
    false init_thresholds (_init_gpu_monitoring gputil_available).

(** ** Bottleneck classifier *)

(** [max(metrics.cpu_per_core) if metrics.cpu_per_core else 0] *)
Definition max_core_usage_of (metrics : SystemMetrics) : result Q :=
  if truthy (cpu_per_core metrics) then Py.max (cpu_per_core metrics)
  else Ok 0.

(** The accumulation of the raw buckets: the body of
    [_analyze_bottleneck] up to the GPU analysis.  A threshold that the
    source reads in the test and again in the added term is read once. *)
Definition score_buckets (self : PerformanceMonitor) (metrics : SystemMetrics)
    : result (dict Q) :=
  let scores : dict Q :=
    [("CPU", 0.0); ("Memory", 0.0); ("GPU", 0.0); ("GPU_Memory", 0.0);
     ("None", 0.0)] in
  max_core_usage <- max_core_usage_of metrics ;;
  scores <- (if gt max_core_usage 85.0 then iadd scores "CPU" 0.8
             else if gt max_core_usage 70.0 then iadd scores "CPU" 0.5
             else if gt max_core_usage 60.0 then iadd scores "CPU" 0.3
             else Ok scores) ;;
  cpu_high <- getitem (thresholds self) "cpu_high" ;;
  scores <- (if gt (cpu_percent metrics) cpu_high
             then iadd scores "CPU" ((cpu_percent metrics - cpu_high) / 30.0)
             else Ok scores) ;;
  scores <- (if gt (falcon_bms_cpu metrics) 150.0 then iadd scores "CPU" 0.4
             else if gt (falcon_bms_cpu metrics) 100.0
                  then iadd scores "CPU" 0.2
             else Ok scores) ;;
  memory_high <- getitem (thresholds self) "memory_high" ;;
  scores <- (if gt (memory_percent metrics) memory_high
             then iadd scores "Memory"
                       ((memory_percent metrics - memory_high) / 15.0)
             else Ok scores) ;;
  if gpu_available self then
    gpu_high <- getitem (thresholds self) "gpu_high" ;;
    scores <- (if gt (gpu_utilization metrics) gpu_high
               then iadd scores "GPU"
                         ((gpu_utilization metrics - gpu_high) / 10.0)
               else Ok scores) ;;
    gpu_memory_high <- getitem (thresholds self) "gpu_memory_high" ;;
    (if gt (gpu_memory_percent metrics) gpu_memory_high
     then iadd scores "GPU_Memory"
               ((gpu_memory_percent metrics - gpu_memory_high) / 15.0)
     else Ok scores)
  else Ok scores.

(** "If no significant bottleneck detected". *)
Definition none_rule (scores : dict Q) : result (dict Q) :=
  max_score <- Py.max (values scores) ;;
  if lt max_score 0.3 then Ok (setitem scores "None" 1.0) else Ok scores.

(** [{k: v / total_score for k, v in scores.items()}] *)
Fixpoint divide_all (its : list (string * Q)) (total_score : Q) (acc : dict Q)
    : result (dict Q) :=
  match its with
  | [] => Ok acc
  | (k, v) :: rest =>
      q <- truediv v total_score ;;
      divide_all rest total_score (setitem acc k q)
  end.

(** "Normalize scores". *)
Definition normalize (scores : dict Q) : result (dict Q) :=
  let total_score := Py.sum (values scores) in
  if gt total_score 0 then divide_all (items scores) total_score []
  else Ok scores.

(** "Determine primary bottleneck". *)
Definition primary (scores : dict Q) : result string :=
  best <- max_by (fun x => snd x) (items scores) ;;
  Ok (fst best).

Definition _analyze_bottleneck (self : PerformanceMonitor)
    (metrics : SystemMetrics) : result (string * dict Q) :=
  scores <- score_buckets self metrics ;;
  scores <- none_rule scores ;;
  scores <- normalize scores ;;
  bottleneck <- primary scores ;;
  Ok (bottleneck, scores).

(** ** Snapshot collection and the sampling loop *)

(** One device as [GPUtil.getGPUs()] reports it. *)
Record GPU : Type := mkGPU {
  load : Q;
  memoryUtil : Q;
  memoryUsed : Q;
  temperature : Q
}.

(** What the platform providers return during one sampling pass:
    [datetime.now()], [psutil.cpu_percent], [psutil.virtual_memory],
    [GPUtil.getGPUs()] (which may raise) and, when the target process was
    found and its CPU share could be read, that share together with the
    resident set size, if reading it did not raise.  The readings are
    those of a pass in which the lookup of the target process returned;
    the lookup itself, which can raise, is [_find_falcon_bms_process]
    below. *)
Record Readings : Type := mkReadings {
  r_now : Z;
  r_cpu_percent : Q;
  r_cpu_per_core : list Q;
  r_memory_percent : Q;
  r_memory_used : Z;
  r_memory_available : Z;
  r_gpus : result (list GPU);
  r_falcon : option (Q * option Z)
}.

(** [_get_gpu_metrics]: the first device, or four zeros when the library
    is missing, the query raises or no device is listed. *)
Definition _get_gpu_metrics (gputil_available : bool)
    (gpus : result (list GPU)) : Q * Q * Q * Q :=
  if gputil_available then
    match gpus with
    | Ok (gpu :: _) =>
        (load gpu * 100, memoryUtil gpu * 100, memoryUsed gpu / 1024,
         temperature gpu)
    | Ok [] => (0.0, 0.0, 0.0, 0.0)
    | Raise _ => (0.0, 0.0, 0.0, 0.0)
    end
  else (0.0, 0.0, 0.0, 0.0).

Definition set_classification (m : SystemMetrics) (b : string)
    (scores : dict Q) : SystemMetrics :=
  mkSystemMetrics (timestamp m) (cpu_percent m) (cpu_per_core m)
    (memory_percent m) (memory_used_gb m) (memory_available_gb m)
    (gpu_utilization m) (gpu_memory_percent m) (gpu_memory_used_gb m)
    (gpu_temperature m) (falcon_bms_cpu m) (falcon_bms_memory_mb m) b scores.

Definition _collect_metrics (self : PerformanceMonitor) (r : Readings)
    : result SystemMetrics :=
  let '(gpu_util, gpu_mem_percent, gpu_mem_used_gb, gpu_temp) :=
    _get_gpu_metrics (gpu_available self) (r_gpus r) in
  let '(falcon_cpu, falcon_memory_mb) :=
    match r_falcon r with
    | Some (cpu, Some rss) => (cpu, inject_Z rss / inject_Z (1024 ^ 2))
    | Some (cpu, None) => (cpu, 0.0)
    | None => (0.0, 0.0)
    end in
  let metrics :=
    mkSystemMetrics (r_now r) (r_cpu_percent r) (r_cpu_per_core r)
      (r_memory_percent r)
      (inject_Z (r_memory_used r) / inject_Z (1024 ^ 3))
      (inject_Z (r_memory_available r) / inject_Z (1024 ^ 3))
      gpu_util gpu_mem_percent gpu_mem_used_gb gpu_temp
      falcon_cpu falcon_memory_mb "" [] in
  res <- _analyze_bottleneck self metrics ;;
  Ok (set_classification metrics (fst res) (snd res)).

(** [self.metrics_history.append(metrics)] *)
Definition record_metrics (self : PerformanceMonitor) (metrics : SystemMetrics)
    : PerformanceMonitor :=
  mkPerformanceMonitor (sample_interval self) (history_size self)
    (deque_append (metrics_history self) metrics)
    (running self) (thresholds self) (gpu_available self).

(** One pass of the body of [_monitor_loop]: an exception of the
    collection is printed and the history is left as it was. *)
Definition monitor_iteration (self : PerformanceMonitor) (r : Readings)
    : PerformanceMonitor :=
  match _collect_metrics self r with
  | Ok metrics => record_metrics self metrics
  | Raise _ => self
  end.

(** [_monitor_loop] over the readings of its successive passes: a pass is
    made while [self.running] holds. *)
Fixpoint _monitor_loop (self : PerformanceMonitor) (rs : list Readings)
    : PerformanceMonitor :=
  match rs with
  | [] => self
  | r :: rs' =>
      if running self then _monitor_loop (monitor_iteration self r) rs'
      else self
  end.

(** [start_monitoring] and [stop_monitoring], as far as the flag goes;
    the thread is the loop above. *)
Definition set_running (self : PerformanceMonitor) (flag : bool)
    : PerformanceMonitor :=
  mkPerformanceMonitor (sample_interval self) (history_size self)
    (metrics_history self) flag (thresholds self) (gpu_available self).

Definition start_monitoring (self : PerformanceMonitor) : PerformanceMonitor :=
  if negb (running self) then set_running self true else self.

Definition stop_monitoring (self : PerformanceMonitor) : PerformanceMonitor :=
  set_running self false.

Definition get_current_metrics (self : PerformanceMonitor)
    : option SystemMetrics :=
  if truthy (elems (metrics_history self))
  then match last_item (elems (metrics_history self)) with
       | Ok m => Some m
       | Raise _ => None
       end
  else None.

(** ** Recommendation generator *)

Definition _get_recommendations (self : PerformanceMonitor)
    (metrics : SystemMetrics) : result (list string) :=
  let recommendations : list string := [] in
  max_core_usage <- max_core_usage_of metrics ;;
  if String.eqb (bottleneck metrics) "CPU" then
    if gt max_core_usage 80 then
      Ok (recommendations ++
          [("Single-core bottleneck detected (Core at "
              ++ format_0f max_core_usage ++ "%)")%string;
           "Falcon BMS is limited by single-threaded performance";
           "Consider overclocking your CPU for better single-core performance";
           "Lower CPU-intensive settings: AI traffic, ground objects, weather complexity"])%list
    else
      Ok (recommendations ++
          ["CPU bottleneck detected - reduce CPU-intensive settings";
           "Close unnecessary background applications";
           "Lower AI traffic and ground object density";
           "Consider upgrading to a faster CPU"])%list
  else if String.eqb (bottleneck metrics) "Memory" then
    Ok (recommendations ++
        ["Memory shortage detected - close unnecessary applications";
         "Consider adding more RAM to your system";
         "Lower texture quality in Falcon BMS settings";
         "Check for memory leaks in background processes"])%list
  else if String.eqb (bottleneck metrics) "GPU" then
    Ok (recommendations ++
        ["GPU bottleneck - lower graphics settings in Falcon BMS";
         "Reduce anti-aliasing and post-processing effects";
         "Lower VR resolution or use dynamic resolution scaling";
         "Check GPU temperatures and fan curves"])%list
  else if String.eqb (bottleneck metrics) "GPU_Memory" then
    Ok (recommendations ++
        ["GPU memory bottleneck - lower texture quality and resolution";
         "Reduce visual range and object density in VR";
         "Close other GPU-intensive applications";
         "Consider a GPU upgrade with more VRAM"])%list
  else
    let recommendations :=
      (recommendations ++
       ["System performance appears balanced. No immediate bottlenecks detected."])%list in
    if gt max_core_usage 60 then
      Ok (recommendations ++
          [("Note: Highest core usage is " ++ format_0f max_core_usage
              ++ "% - monitor for single-core limits")%string])%list
    else Ok recommendations.

(** ** The recommendation generator on the store of objects *)

(** In Python the generator receives references: to the monitor, and to a
    snapshot that the history and the caller share.  Here it is given with
    the objects it could reach and write to: the monitor, the snapshots
    and the lists of strings, the latter two by address; [st_next] is the
    first address no list occupies yet. *)
Record Store : Type := mkStore {
  st_monitor : PerformanceMonitor;
  st_metrics : nat -> SystemMetrics;
  st_lists : nat -> list string;
  st_next : nat
}.

Module OnStore.

Definition Stateful (A : Type) : Type := Store -> result (A * Store).

Definition ret {A : Type} (a : A) : Stateful A := fun st => Ok (a, st).

Definition bind {A B : Type} (c : Stateful A) (k : A -> Stateful B)
    : Stateful B :=
  fun st =>
    match c st with
    | Ok (a, st') => k a st'
    | Raise e => Raise e
    end.

Definition lift {A : Type} (c : result A) : Stateful A :=
  fun st =>
    match c with
    | Ok a => Ok (a, st)
    | Raise e => Raise e
    end.

(** [[]]: a new, empty list object. *)
Definition new_list : Stateful nat :=
  fun st =>
    Ok (st_next st,
        mkStore (st_monitor st) (st_metrics st)
          (fun a => if (a =? st_next st)%nat then [] else st_lists st a)
          (S (st_next st))).

(** [l.extend(items)] and [l.append(item)] write to the list object. *)
Definition extend (l : nat) (items : list string) : Stateful unit :=
  fun st =>
    Ok (tt,
        mkStore (st_monitor st) (st_metrics st)
          (fun a => if (a =? l)%nat then (st_lists st l ++ items)%list
                    else st_lists st a)
          (st_next st)).

Definition append (l : nat) (item : string) : Stateful unit :=
  extend l [item].

(** [metrics.field] reads the snapshot object. *)
Definition getattr {A : Type} (metrics : nat) (field : SystemMetrics -> A)
    : Stateful A :=
  fun st => Ok (field (st_metrics st metrics), st).

(** [metrics.bottleneck = b] and [metrics.bottleneck_score = scores]
    write to it: the two assignments that end [_collect_metrics]. *)
Definition set_classification (metrics : nat) (b : string) (scores : dict Q)
    : Stateful unit :=
  fun st =>
    Ok (tt,
        mkStore (st_monitor st)
          (fun a => if (a =? metrics)%nat
                    then set_classification (st_metrics st a) b scores
                    else st_metrics st a)
          (st_lists st) (st_next st)).

Notation "x <-- c ;; k" := (bind c (fun x => k))
  (at level 61, c at next level, right associativity).
Notation "c ;;; k" := (bind c (fun _ => k))
  (at level 61, right associativity).

(** [_get_recommendations(self, metrics)], statement by statement; the
    result is the address of the list. *)
Definition _get_recommendations (metrics : nat) : Stateful nat :=
  recommendations <-- new_list ;;
  cores <-- getattr metrics cpu_per_core ;;
  max_core_usage <--
    (if truthy cores then
       cores <-- getattr metrics cpu_per_core ;; lift (Py.max cores)
     else ret 0) ;;
  label <-- getattr metrics bottleneck ;;
  if String.eqb label "CPU" then
    (if gt max_core_usage 80 then
       extend recommendations
         [("Single-core bottleneck detected (Core at "
             ++ format_0f max_core_usage ++ "%)")%string;
          "Falcon BMS is limited by single-threaded performance";
          "Consider overclocking your CPU for better single-core performance";
          "Lower CPU-intensive settings: AI traffic, ground objects, weather complexity"]
     else
       extend recommendations
         ["CPU bottleneck detected - reduce CPU-intensive settings";
          "Close unnecessary background applications";
          "Lower AI traffic and ground object density";
          "Consider upgrading to a faster CPU"]) ;;;
    ret recommendations
  else
    label <-- getattr metrics bottleneck ;;
    if String.eqb label "Memory" then
      extend recommendations
        ["Memory shortage detected - close unnecessary applications";
         "Consider adding more RAM to your system";
         "Lower texture quality in Falcon BMS settings";
         "Check for memory leaks in background processes"] ;;;
      ret recommendations
    else
      label <-- getattr metrics bottleneck ;;
      if String.eqb label "GPU" then
        extend recommendations
          ["GPU bottleneck - lower graphics settings in Falcon BMS";
           "Reduce anti-aliasing and post-processing effects";
           "Lower VR resolution or use dynamic resolution scaling";
           "Check GPU temperatures and fan curves"] ;;;
        ret recommendations
      else
        label <-- getattr metrics bottleneck ;;
        if String.eqb label "GPU_Memory" then
          extend recommendations
            ["GPU memory bottleneck - lower texture quality and resolution";
             "Reduce visual range and object density in VR";
             "Close other GPU-intensive applications";
             "Consider a GPU upgrade with more VRAM"] ;;;
          ret recommendations
        else
          append recommendations
            "System performance appears balanced. No immediate bottlenecks detected." ;;;
          (if gt max_core_usage 60 then
             append recommendations
               ("Note: Highest core usage is " ++ format_0f max_core_usage
                ++ "% - monitor for single-core limits")%string
           else ret tt) ;;;
          ret recommendations.

End OnStore.

(** ** Windowed analysis *)

Record Summary : Type := mkSummary {
  current_bottleneck : string;
  bottleneck_confidence : dict Q;
  bottleneck_frequency : dict Z;
  current_metrics : dict Q;
  recommendations : list string
}.

(** The dictionary [get_bottleneck_analysis] returns: either the one with
    the single key ["error"], or the summary. *)
Inductive Analysis : Type :=
| ErrorResult (error : string)
| Report (summary : Summary).

(** "Get metrics within the time window": the samples at or after the
    cutoff, or the latest one alone when there is none. *)
Definition recent_metrics_of (self : PerformanceMonitor) (cutoff_time : Z)
    : result (list SystemMetrics) :=
  let recent_metrics :=
    filter (fun m => (timestamp m >=? cutoff_time)%Z)
           (elems (metrics_history self)) in
  if negb (truthy recent_metrics) then
    latest <- last_item (elems (metrics_history self)) ;;
    Ok [latest]
  else Ok recent_metrics.

(** "Aggregate bottleneck scores": one pass of the outer loop. *)
Definition aggregate_one (acc : dict Z * dict (list Q)) (metrics : SystemMetrics)
    : dict Z * dict (list Q) :=
  let '(bottleneck_counts, avg_scores) := acc in
  let bottleneck_counts :=
    setitem bottleneck_counts (bottleneck metrics)
      (getdefault 0%Z bottleneck_counts (bottleneck metrics) + 1)%Z in
  let avg_scores :=
    fold_left
      (fun (avg : dict (list Q)) (it : string * Q) =>
         setitem avg (fst it) (getdefault [] avg (fst it) ++ [snd it])%list)
      (items (bottleneck_score metrics)) avg_scores in
  (bottleneck_counts, avg_scores).

(** "Calculate averages". *)
Fixpoint averages (its : list (string * list Q)) (final_scores : dict Q)
    : result (dict Q) :=
  match its with
  | [] => Ok final_scores
  | (component, scores) :: rest =>
      avg <- truediv (Py.sum scores)
                     (inject_Z (Z.of_nat (List.length scores))) ;;
      averages rest (setitem final_scores component avg)
  end.

(** The body of [get_bottleneck_analysis] after the window is chosen. *)
Definition summarize (self : PerformanceMonitor)
    (recent_metrics : list SystemMetrics) : result Analysis :=
  let '(bottleneck_counts, avg_scores) :=
    fold_left aggregate_one recent_metrics ([], []) in
  final_scores <- averages (items avg_scores) [] ;;
  current <- last_item recent_metrics ;;
  recs <- _get_recommendations self current ;;
  Ok (Report
        (mkSummary (bottleneck current) final_scores bottleneck_counts
           [("cpu_percent", cpu_percent current);
            ("memory_percent", memory_percent current);
            ("gpu_utilization", gpu_utilization current);
            ("gpu_memory_percent", gpu_memory_percent current);
            ("falcon_bms_cpu", falcon_bms_cpu current);
            ("falcon_bms_memory_mb", falcon_bms_memory_mb current)]
           recs)).

(** [datetime.now() - timedelta(seconds=window_seconds)] *)
Definition cutoff_of (now window_seconds : Z) : result Z :=
  delta <- timedelta_seconds window_seconds ;;
  datetime_sub now delta.

(** [get_bottleneck_analysis]; [now] is what [datetime.now()] returns
    during the call. *)
Definition get_bottleneck_analysis (self : PerformanceMonitor) (now : Z)
    (window_seconds : Z) : result Analysis :=
  if negb (truthy (elems (metrics_history self))) then
    Ok (ErrorResult "No metrics data available")
  else
    cutoff_time <- cutoff_of now window_seconds ;;
    recent_metrics <- recent_metrics_of self cutoff_time ;;
    summarize self recent_metrics.

(** ** Looking up the target process *)

(** [str.lower] and [sub in s] on process names, which are taken to be
    ASCII strings. *)
Definition lower_char (c : ascii) : ascii :=
  let n := nat_of_ascii c in
  if ((65 <=? n) && (n <=? 90))%nat then ascii_of_nat (n + 32) else c.

Fixpoint lower (s : string) : string :=
  match s with
  | EmptyString => EmptyString
  | String c s' => String (lower_char c) (lower s')
  end.

Fixpoint contains (sub s : string) : bool :=
  match s with
  | EmptyString => String.prefix sub EmptyString
  | String _ s' => String.prefix sub s || contains sub s'
  end.

(** One entry of [psutil.process_iter(['pid', 'name'])]: the [info]
    dictionary, whose name is [None] when the name could not be read, and
    whether [psutil.Process(pid)] still finds the process. *)
Record ProcInfo : Type := mkProcInfo {
  info_pid : Z;
  info_name : option string;
  process_exists : bool
}.

(** What a call of [_find_falcon_bms_process] ends in: a process handle,
    [None], or the [AttributeError] of [None.lower()], which the function
    does not catch. *)
Inductive Lookup : Type :=
| Found (pid : Z)
| NotFound
| AttributeError.

Definition falcon_names : list string :=
  ["Falcon BMS.exe"; "bms.exe"; "falcon4.exe"; "FalconBMS.exe"].

(** [any(name.lower() in proc.info['name'].lower() for name in
    falcon_names)] on a name that is not [None]. *)
Definition name_matches (process_name : string) : bool :=
  existsb (fun n => contains (lower n) (lower process_name)) falcon_names.

Fixpoint _find_falcon_bms_process (procs : list ProcInfo) : Lookup :=
  match procs with
  | [] => NotFound
  | proc :: rest =>
      match info_name proc with
      | None => AttributeError
      | Some process_name =>
          if name_matches process_name then
            if process_exists proc then Found (info_pid proc)
            else _find_falcon_bms_process rest
          else _find_falcon_bms_process rest
      end
  end.

(** ** The console display *)

(** Printing with exceptions: a computation takes the lines printed so
    far and returns them, extended, with its result. *)
Definition Display (A : Type) : Type := list string -> list string * result A.

(** [print(line)] on a console that encodes every character of the line,
    as a UTF-8 terminal does.  On a console that cannot encode one of the
    symbols in the titles, the degree sign or the bar, [print] raises
    [UnicodeEncodeError] instead; what is stated of the display below is
    either about which lines a loop selects, or holds on such a console
    as well. *)
Definition print (line : string) : Display unit :=
  fun out => ((out ++ [line])%list, Ok tt).

Definition lift {A : Type} (c : result A) : Display A := fun out => (out, c).

Definition dbind {A B : Type} (c : Display A) (k : A -> Display B)
    : Display B :=
  fun out =>
    match c out with
    | (out', Ok a) => k a out'
    | (out', Raise e) => (out', Raise e)
    end.

Notation "x <~ c ;; k" := (dbind c (fun x => k))
  (at level 61, c at next level, right associativity).
Notation "c ;;; k" := (dbind c (fun _ => k))
  (at level 61, right associativity).

(** [for x in l: body(x)] *)
Fixpoint for_each {A : Type} (l : list A) (body : A -> Display unit)
    : Display unit :=
  match l with
  | [] => lift (Ok tt)
  | x :: l' => body x ;;; for_each l' body
  end.

(** [s * n] *)
Fixpoint str_mul (s : string) (n : nat) : string :=
  match n with
  | O => EmptyString
  | S n' => (s ++ str_mul s n')%string
  end.

(** [str(n)] for an integer. *)
Definition str_int (n : Z) : string := NilZero.string_of_int (Z.to_int n).

(** [int(x)]: truncation towards zero. *)
Definition int_of (x : Q) : Z := Z.quot (Qnum x) (Zpos (Qden x)).

(** Padding to a minimal width: numbers to the right, strings to the
    left. *)
Definition rjust (w : nat) (s : string) : string :=
  (str_mul " " (w - String.length s) ++ s)%string.

Definition ljust (w : nat) (s : string) : string :=
  (s ++ str_mul " " (w - String.length s))%string.

(** [f"{x:.1f}"]: one decimal, halves to the even neighbour; a negative
    value keeps its sign when it rounds to zero. *)
Definition format_1f (x : Q) : string :=
  let n := Z.abs (round_half_even (x * 10)) in
  ((if lt x 0 then "-" else "")
   ++ str_int (n / 10) ++ "." ++ str_int (n mod 10))%string.

(** [f"{x:5.1%}"] *)
Definition format_percent (x : Q) : string :=
  rjust 5 (format_1f (x * 100) ++ "%")%string.

(** [sorted(l, key=key, reverse=True)]: descending by key, elements of
    equal key in their original order. *)
Fixpoint insert_desc {A : Type} (key : A -> Q) (x : A) (l : list A) : list A :=
  match l with
  | [] => [x]
  | y :: l' =>
      if gt (key y) (key x) then y :: insert_desc key x l'
      else x :: y :: l'
  end.

Fixpoint sorted_desc {A : Type} (key : A -> Q) (l : list A) : list A :=
  match l with
  | [] => []
  | x :: l' => insert_desc key x (sorted_desc key l')
  end.

(** [enumerate(l, start)] *)
Definition enumerate {A : Type} (start : nat) (l : list A)
    : list (nat * A) :=
  combine (seq start (List.length l)) l.

Section Console.

(** [timestamp.strftime('%H:%M:%S')] and [str(e)] of an exception are
    left to the library. *)
Variable strftime_HMS : Z -> string.
Variable str_exn : exn -> string.

(** "Show top 4 most active CPU cores". *)
Definition top_cores (current : SystemMetrics) : list (nat * Q) :=
  firstn 4 (sorted_desc (fun x => snd x) (enumerate 0 (cpu_per_core current))).

Definition core_info (current : SystemMetrics) : string :=
  String.concat ", "
    (map (fun cu => ("C" ++ str_int (Z.of_nat (fst cu)) ++ ":"
                     ++ format_0f (snd cu) ++ "%")%string)
         (filter (fun cu => gt (snd cu) 5) (top_cores current))).

(** The loop over the sorted confidences. *)
Definition confidence_lines (confidence : dict Q) : Display unit :=
  for_each (sorted_desc (fun x => snd x) (items confidence))
    (fun it =>
       if gt (snd it) 0.1 then
         let bar := str_mul "█" (Z.to_nat (int_of (snd it * 20))) in
         print ("    " ++ ljust 12 (fst it) ++ " " ++ format_percent (snd it)
                ++ " " ++ bar)%string
       else lift (Ok tt)).

(** The loop over the first three recommendations. *)
Definition recommendation_lines (recs : list string) : Display unit :=
  for_each (enumerate 1 (firstn 3 recs))
    (fun ir =>
       print ("  " ++ str_int (Z.of_nat (fst ir)) ++ ". " ++ snd ir)%string).

(** The body of the [try] in [print_real_time_status]: one pass of the
    display.  Clearing the screen and sleeping leave no trace here; [now]
    is the time [get_bottleneck_analysis] reads. *)
Definition display_try (self : PerformanceMonitor) (now : Z) : Display unit :=
  match get_current_metrics self with
  | None => print "Collecting initial data..."
  | Some current =>
      analysis <~ lift (get_bottleneck_analysis self now 30) ;;
      print (str_mul "=" 80) ;;;
      print ("FALCON BMS PERFORMANCE MONITOR - "
             ++ strftime_HMS (timestamp current))%string ;;;
      print (str_mul "=" 80) ;;;
      print "
📊 SYSTEM METRICS:" ;;;
      max_core <~ lift (Py.max (cpu_per_core current)) ;;
      print ("  CPU Usage:     " ++ rjust 6 (format_1f (cpu_percent current))
             ++ "% overall (Max core: " ++ rjust 6 (format_1f max_core)
             ++ "%)")%string ;;;
      print ("  Memory Usage:  "
             ++ rjust 6 (format_1f (memory_percent current))
             ++ "% (" ++ format_1f (memory_used_gb current)
             ++ "GB used)")%string ;;;
      (if negb (String.eqb (core_info current) "")
       then print ("  Active Cores:  " ++ core_info current)%string
       else lift (Ok tt)) ;;;
      (if gpu_available self then
         print ("  GPU Usage:     "
                ++ rjust 6 (format_1f (gpu_utilization current))
                ++ "% (Temp: " ++ format_0f (gpu_temperature current)
                ++ "°C)")%string ;;;
         print ("  GPU Memory:    "
                ++ rjust 6 (format_1f (gpu_memory_percent current))
                ++ "% (" ++ format_1f (gpu_memory_used_gb current)
                ++ "GB used)")%string
       else
         print "  GPU Usage:     Not available (install GPUtil for GPU monitoring)") ;;;
      print "
🎮 FALCON BMS:" ;;;
      (if gt (falcon_bms_cpu current) 0 then
         print ("  Process CPU:   "
                ++ rjust 6 (format_1f (falcon_bms_cpu current))
                ++ "%")%string ;;;
         print ("  Process RAM:   "
                ++ rjust 6 (format_0f (falcon_bms_memory_mb current))
                ++ "MB")%string
       else
         print "  Status:        Not detected (not running or different process name)") ;;;
      print "
🚨 BOTTLENECK ANALYSIS:" ;;;
      summary <~ lift (match analysis with
                       | Report summary => Ok summary
                       | ErrorResult _ => Raise KeyError
                       end) ;;
      print ("  Primary:       " ++ current_bottleneck summary)%string ;;;
      print "  Confidence:" ;;;
      confidence_lines (bottleneck_confidence summary) ;;;
      print "
💡 RECOMMENDATIONS:" ;;;
      recommendation_lines (recommendations summary) ;;;
      print ("
⏱️  Monitoring for "
             ++ str_int (Z.of_nat (List.length (elems (metrics_history self))))
             ++ " samples")%string ;;;
      print "   Press Ctrl+C to stop monitoring"
  end.

(** One pass of the loop of [print_real_time_status] with its handler:
    the lines it prints, starting from a cleared screen. *)
Definition display_pass (self : PerformanceMonitor) (now : Z) : list string :=
  match display_try self now [] with
  | (out, Ok _) => out
  | (out, Raise e) => (out ++ ["Display error: " ++ str_exn e]%string)%list
  end.

End Console.

(** ** Vocabulary of the statements *)

(** A monitor as [__init__] builds it: nothing in the program assigns
    [thresholds] afterwards. *)
Definition initialised (self : PerformanceMonitor) : Prop :=
  thresholds self = init_thresholds.

(** A score map over the five labels, in the order of the dict literal of
    [_analyze_bottleneck]. *)
Definition buckets (c me g gm n : Q) : dict Q :=
  [("CPU", c); ("Memory", me); ("GPU", g); ("GPU_Memory", gm); ("None", n)].

Definition labels : list string :=
  ["CPU"; "Memory"; "GPU"; "GPU_Memory"; "None"].

(** The value each raw bucket reaches, read off [score_buckets] with the
    thresholds of [__init__]; [score_buckets_eq] proves that this is what
    [score_buckets] returns. *)
Definition cpu_bucket (mc : Q) (metrics : SystemMetrics) : Q :=
  let c := 0.0 in
  let c := if gt mc 85.0 then c + 0.8
           else if gt mc 70.0 then c + 0.5
           else if gt mc 60.0 then c + 0.3 else c in
  let c := if gt (cpu_percent metrics) 85.0
           then c + (cpu_percent metrics - 85.0) / 30.0 else c in
  if gt (falcon_bms_cpu metrics) 150.0 then c + 0.4
  else if gt (falcon_bms_cpu metrics) 100.0 then c + 0.2 else c.

Definition memory_bucket (metrics : SystemMetrics) : Q :=
  if gt (memory_percent metrics) 85.0
  then 0.0 + (memory_percent metrics - 85.0) / 15.0 else 0.0.

Definition gpu_bucket (self : PerformanceMonitor) (metrics : SystemMetrics)
    : Q :=
  if gpu_available self then
    if gt (gpu_utilization metrics) 90.0
    then 0.0 + (gpu_utilization metrics - 90.0) / 10.0 else 0.0
  else 0.0.

Definition gpu_memory_bucket (self : PerformanceMonitor)
    (metrics : SystemMetrics) : Q :=
  if gpu_available self then
    if gt (gpu_memory_percent metrics) 85.0
    then 0.0 + (gpu_memory_percent metrics - 85.0) / 15.0 else 0.0
  else 0.0.

(** The maximum the None rule takes, and the sum the normalisation takes,
    on a five-bucket map. *)
Definition raw_max (c me g gm : Q) : Q :=
  max_from (fun x => x) c [me; g; gm; 0.0].

Definition total (c me g gm n : Q) : Q :=
  Py.sum (values (buckets c me g gm n)).

(** [r] is the first element of [l] whose key is maximal. *)
Definition first_max {A : Type} (key : A -> Q) (l : list A) (r : A) : Prop :=
  exists pre post,
    l = (pre ++ r :: post)%list
    /\ Forall (fun y => key y < key r) pre
    /\ Forall (fun y => key y <= key r) post.

(** What one run of the classifier computes, stage by stage. *)
Record run (self : PerformanceMonitor) (metrics : SystemMetrics)
    (c me g gm n : Q) (label : string) : Prop := mkRun {
  run_raw : score_buckets self metrics = Ok (buckets c me g gm 0.0);
  run_cpu : 0 <= c;
  run_memory : 0 <= me;
  run_gpu : 0 <= g;
  run_gpu_memory : 0 <= gm;
  run_no_gpu : gpu_available self = false -> g = 0.0 /\ gm = 0.0;
  run_none : none_rule (buckets c me g gm 0.0) = Ok (buckets c me g gm n);
  run_fired : n = (if lt (raw_max c me g gm) 0.3 then 1.0 else 0.0);
  run_total : 0 < total c me g gm n;
  run_normalize :
    normalize (buckets c me g gm n)
    = Ok (buckets (c / total c me g gm n) (me / total c me g gm n)
                  (g / total c me g gm n) (gm / total c me g gm n)
                  (n / total c me g gm n));
  run_primary :
    primary (buckets (c / total c me g gm n) (me / total c me g gm n)
                     (g / total c me g gm n) (gm / total c me g gm n)
                     (n / total c me g gm n))
    = Ok label;
  run_result :
    _analyze_bottleneck self metrics
    = Ok (label,
          buckets (c / total c me g gm n) (me / total c me g gm n)
                  (g / total c me g gm n) (gm / total c me g gm n)
                  (n / total c me g gm n))
}.

(** What [deque] keeps of a sequence: its last [n] elements. *)
Definition keep_last {A : Type} (n : nat) (l : list A) : list A :=
  skipn (List.length l - n) l.

Definition history_wf (self : PerformanceMonitor) : Prop :=
  (List.length (elems (metrics_history self))
   <= maxlen (metrics_history self))%nat.

Definition increasing (l : list SystemMetrics) : Prop :=
  Sorted (fun a b => (timestamp a < timestamp b)%Z) l.

(** Every list of [avg_scores] holds at least one score. *)
Definition filled (avg : dict (list Q)) : Prop :=
  Forall (fun it => snd it <> []) avg.

(** What a call that began in [st] may leave behind in [st']: the monitor
    and every snapshot as they were, every list that existed as it was,
    and one new list, at the address [st_next st], holding [recs]. *)
Definition only_allocates (st : Store) (recs : list string) (st' : Store)
    : Prop :=
  st_monitor st' = st_monitor st
  /\ st_metrics st' = st_metrics st
  /\ (forall a, a <> st_next st -> st_lists st' a = st_lists st a)
  /\ st_lists st' (st_next st) = recs
  /\ st_next st' = S (st_next st).

(** The window is an interval [timedelta] can hold and the cutoff
    [now - window_seconds] is a datetime. *)
Definition representable (now window_seconds : Z) : Prop :=
  (Z.abs (window_seconds / 86400) <= 999999999
   /\ 0 <= now - window_seconds * 1000000 <= datetime_max)%Z.

(** The error dictionary is returned exactly when no sample was ever
    recorded: stated for a monitor built with capacity [hs] that has
    recorded the samples [ps]. *)
Definition error_iff_never_sampled (si : Q) (hs : nat) (gpu : bool)
    (ps : list SystemMetrics) (now window_seconds : Z) : Prop :=
  (exists msg,
     get_bottleneck_analysis (fold_left record_metrics ps (__init__ si hs gpu))
       now window_seconds = Ok (ErrorResult msg))
  <-> ps = [].

(** Once a sample was recorded, and no stored sample is at or after
    [now - window_seconds], the analysis is the summary of the latest
    sample alone: stated for the same monitor. *)
Definition fallback_on_latest (si : Q) (hs : nat) (gpu : bool)
    (ps : list SystemMetrics) (now window_seconds : Z) : Prop :=
  ps <> [] ->
  (forall m,
     In m (elems (metrics_history
                    (fold_left record_metrics ps (__init__ si hs gpu)))) ->
     (timestamp m < now - window_seconds * 1000000)%Z) ->
  exists latest,
    last_item ps = Ok latest
    /\ get_bottleneck_analysis
         (fold_left record_metrics ps (__init__ si hs gpu)) now window_seconds
       = summarize (fold_left record_metrics ps (__init__ si hs gpu))
           [latest].

(** ** Sample inputs *)

Definition default_monitor : PerformanceMonitor :=
  __init__ default_sample_interval default_history_size true.
Definition cpu_only_monitor : PerformanceMonitor :=
  __init__ default_sample_interval default_history_size false.

Definition idle_snapshot : SystemMetrics :=
  mkSystemMetrics 0 10 [10; 5] 40 6 10 0 0 0 0 0 0 "" [].

Definition saturated_core_snapshot : SystemMetrics :=
  mkSystemMetrics 1000000 50 [35; 90; 20; 12] 40 6 10 30 20 2 55 0 0 "" [].

Definition gpu_busy_snapshot : SystemMetrics :=
  mkSystemMetrics 2000000 30 [40; 30] 50 8 8 99 97 7 80 0 0 "" [].

Definition no_cores_snapshot : SystemMetrics :=
  mkSystemMetrics 3000000 95 [] 50 8 8 0 0 0 0 0 0 "CPU" [].

Definition memory_pressure_snapshot : SystemMetrics :=
  mkSystemMetrics 4000000 10 [10; 5] 95 15 1 0 0 0 0 0 0 "" [].

Definition sample_at (t : Z) : SystemMetrics :=
  mkSystemMetrics t 10 [10; 5] 40 6 10 0 0 0 0 0 0 "None"
    (buckets 0 0 0 0 1).

Definition small_monitor : PerformanceMonitor := __init__ 1.0 3 true.

(** [n] samples taken one second apart. *)
Definition samples_every_second (n : nat) : list SystemMetrics :=
  map (fun i => sample_at (Z.of_nat i * 1000000)) (seq 1 n).

Definition four_samples : list SystemMetrics :=
  [sample_at 1000000; sample_at 2000000; sample_at 3000000;
   sample_at 4000000].

(** Two stores that share nothing but the content of one snapshot. *)
Definition quiet_store : Store :=
  mkStore default_monitor
    (fun _ => set_classification saturated_core_snapshot "CPU" [])
    (fun _ => []) 0.

Definition busy_store : Store :=
  mkStore (fold_left record_metrics four_samples cpu_only_monitor)
    (fun a => if (a =? 3)%nat
              then set_classification saturated_core_snapshot "CPU" []
              else idle_snapshot)
    (fun a => if (a <? 5)%nat then ["kept"] else []) 5.

(** 2026-11-03 12:00:00 as a datetime. *)
Definition autumn_2026 : Z := 63929304000000000%Z.

(** ** Vocabulary of the further properties *)

(** The record [_collect_metrics] builds from the readings, before the
    classification is stored in it. *)
Definition reading_metrics (self : PerformanceMonitor) (r : Readings)
    : SystemMetrics :=
  let '(gpu_util, gpu_mem_percent, gpu_mem_used_gb, gpu_temp) :=
    _get_gpu_metrics (gpu_available self) (r_gpus r) in
  let '(falcon_cpu, falcon_memory_mb) :=
    match r_falcon r with
    | Some (cpu, Some rss) => (cpu, inject_Z rss / inject_Z (1024 ^ 2))
    | Some (cpu, None) => (cpu, 0.0)
    | None => (0.0, 0.0)
    end in
  mkSystemMetrics (r_now r) (r_cpu_percent r) (r_cpu_per_core r)
    (r_memory_percent r)
    (inject_Z (r_memory_used r) / inject_Z (1024 ^ 3))
    (inject_Z (r_memory_available r) / inject_Z (1024 ^ 3))
    gpu_util gpu_mem_percent gpu_mem_used_gb gpu_temp
    falcon_cpu falcon_memory_mb "" [].

(** A snapshot whose label and score map are those of a classification:
    the five labels in order, scores between 0 and 1 that add up to 1, and
    the label on the first maximal score. *)
Definition classified (m : SystemMetrics) : Prop :=
  keys (bottleneck_score m) = labels
  /\ Forall (fun v => 0 <= v <= 1) (values (bottleneck_score m))
  /\ Py.sum (values (bottleneck_score m)) == 1
  /\ exists score,
       first_max (fun it => snd it) (items (bottleneck_score m))
         (bottleneck m, score).

(** The two halves of [aggregate_one]: the count of the label and the
    gathering of the scores of one snapshot. *)
Definition count_step (counts : dict Z) (m : SystemMetrics) : dict Z :=
  setitem counts (bottleneck m)
    (getdefault 0%Z counts (bottleneck m) + 1)%Z.

Definition gather_step (avg : dict (list Q)) (m : SystemMetrics)
    : dict (list Q) :=
  fold_left
    (fun (a : dict (list Q)) (it : string * Q) =>
       setitem a (fst it) (getdefault [] a (fst it) ++ [snd it])%list)
    (items (bottleneck_score m)) avg.

(** The snapshots of the passes whose collection returned one. *)
Definition collected (self : PerformanceMonitor) (rs : list Readings)
    : list SystemMetrics :=
  flat_map (fun r => match _collect_metrics self r with
                     | Ok m => [m]
                     | Raise _ => []
                     end) rs.

(** [sum(scores) / len(scores)] as a rational. *)
Definition mean (l : list Q) : Q :=
  Py.sum l / inject_Z (Z.of_nat (List.length l)).

(** The score a snapshot gives to a label. *)
Definition score_of (k : string) (m : SystemMetrics) : Q :=
  getdefault 0 (bottleneck_score m) k.

(** How many snapshots of a list carry a label. *)
Definition occurrences (b : string) (l : list SystemMetrics) : nat :=
  count_occ string_dec (map bottleneck l) b.

(** The lists [avg_scores] holds for the five labels. *)
Definition gathered (l1 l2 l3 l4 l5 : list Q) : dict (list Q) :=
  [("CPU", l1); ("Memory", l2); ("GPU", l3); ("GPU_Memory", l4);
   ("None", l5)].

(** A snapshot whose score map has the five labels as its keys. *)
Definition five_scores (m : SystemMetrics) : Prop :=
  keys (bottleneck_score m) = labels.

(** A process the lookup passes over, and one it returns. *)
Definition passed_over (proc : ProcInfo) : Prop :=
  exists n,
    info_name proc = Some n
    /\ (name_matches n = false \/ process_exists proc = false).

Definition selected (proc : ProcInfo) : Prop :=
  exists n,
    info_name proc = Some n
    /\ name_matches n = true /\ process_exists proc = true.

(** Descending by key. *)
Definition descending {A : Type} (key : A -> Q) (l : list A) : Prop :=
  StronglySorted (fun a b => key b <= key a) l.

(** The line of the display for one confidence. *)
Definition confidence_line (it : string * Q) : string :=
  ("    " ++ ljust 12 (fst it) ++ " " ++ format_percent (snd it) ++ " "
   ++ str_mul "█" (Z.to_nat (int_of (snd it * 20))))%string.

(** The line of the display for one numbered recommendation. *)
Definition recommendation_line (ir : nat * string) : string :=
  ("  " ++ str_int (Z.of_nat (fst ir)) ++ ". " ++ snd ir)%string.

(** What a pass of the display prints before its first metric: the
    frame of the header, its title and the title of the system block. *)
Definition header_block (strftime_HMS : Z -> string)
    (current : SystemMetrics) : list string :=
  [str_mul "=" 80;
   ("FALCON BMS PERFORMANCE MONITOR - "
    ++ strftime_HMS (timestamp current))%string;
   str_mul "=" 80;
   "
📊 SYSTEM METRICS:"].

(** ** Further sample inputs *)

Definition idle_readings : Readings :=
  mkReadings 5000000 12 [14; 9; 3; 20] 41 6000000000 10000000000
    (Ok [mkGPU 0.35 0.4 4096 52]) (Some (30, Some 2000000000%Z)).

Definition busy_readings : Readings :=
  mkReadings 6000000 70 [95; 40; 30; 20] 60 9000000000 7000000000
    (Raise ValueError) None.

Definition stale_samples : list SystemMetrics :=
  [set_classification (sample_at 1000000) "CPU" (buckets 1 0 0 0 0);
   sample_at 2000000; sample_at 3000000].

Definition process_table : list ProcInfo :=
  [mkProcInfo 4 (Some "System") true;
   mkProcInfo 812 (Some "FALCON BMS.EXE") false;
   mkProcInfo 977 (Some "dbms.exe") true;
   mkProcInfo 1020 None true].

Definition no_cores_monitor : PerformanceMonitor :=
  record_metrics small_monitor
    (set_classification no_cores_snapshot "CPU"
       (buckets 1 0 0 0 0)).

(** A clock and exception texts for the runs of the display. *)
Definition clock (t : Z) : string := "12:00:00".
Definition exception_text (e : exn) : string :=
  match e with
  | ValueError => "max() arg is an empty sequence"
  | OverflowError => "date value out of range"
  | KeyError => "'current_bottleneck'"
  | IndexError => "list index out of range"
  | ZeroDivisionError => "division by zero"
  end.

(** ** Comparisons *)

Lemma gt_true (a b : Q) : gt a b = true <-> b < a.
Proof.
  unfold gt. rewrite negb_true_iff, <- not_true_iff_false, Qle_bool_iff.
  split; [apply Qnot_le_lt | apply Qlt_not_le].
Qed.

Lemma gt_false (a b : Q) : gt a b = false <-> a <= b.
Proof.
  unfold gt. rewrite negb_false_iff. apply Qle_bool_iff.
Qed.

Lemma lt_true (a b : Q) : lt a b = true <-> a < b.
Proof. apply (gt_true b a). Qed.

Lemma lt_false (a b : Q) : lt a b = false <-> b <= a.
Proof. apply (gt_false b a). Qed.

Ltac qprop :=
  repeat match goal with
  | H : gt _ _ = true |- _ => apply gt_true in H
  | H : gt _ _ = false |- _ => apply gt_false in H
  | H : lt _ _ = true |- _ => apply lt_true in H
  | H : lt _ _ = false |- _ => apply lt_false in H
  end.

(** Division by a literal is multiplication by a literal. *)
Ltac qlit :=
  unfold Qdiv in *;
  repeat match goal with
  | |- context [Qinv (?n # ?d)] =>
      let r := eval cbv in (Qinv (n # d)) in change (Qinv (n # d)) with r
  | H : context [Qinv (?n # ?d)] |- _ =>
      let r := eval cbv in (Qinv (n # d)) in
      change (Qinv (n # d)) with r in H
  end.

Ltac qsolve := qprop; qlit; lra.

Lemma truediv_ok (a b : Q) : ~ b == 0 -> truediv a b = Ok (a / b).
Proof.
  intros Hb. unfold truediv.
  destruct (Qeq_bool b 0) eqn:E; [|reflexivity].
  apply Qeq_bool_iff in E. contradiction.
Qed.

(** ** [max]: the first maximal element *)

Section FirstMax.
Context {A : Type} (key : A -> Q).

Lemma first_max_bound (l : list A) (r : A) :
  first_max key l r -> Forall (fun y => key y <= key r) l.
Proof.
  intros (pre & post & -> & Hpre & Hpost).
  apply Forall_app; split.
  - eapply Forall_impl; [|exact Hpre]. intros y Hy. apply Qlt_le_weak, Hy.
  - constructor; [apply Qle_refl | exact Hpost].
Qed.

Lemma max_from_first_max (l : list A) :
  forall best, first_max key (best :: l) (max_from key best l).
Proof.
  induction l as [|y l IH]; intros best; cbn [max_from].
  - exists [], []. repeat split; constructor.
  - destruct (gt (key y) (key best)) eqn:E; qprop.
    + destruct (IH y) as (pre & post & Heq & Hpre & Hpost).
      assert (Hy : key y <= key (max_from key y l)).
      { pose proof (first_max_bound (y :: l) _ (IH y)) as Hb.
        inversion Hb; assumption. }
      exists (best :: pre), post. repeat split.
      * cbn. f_equal. exact Heq.
      * constructor; [|exact Hpre]. eapply Qlt_le_trans; eassumption.
      * exact Hpost.
    + destruct (IH best) as (pre & post & Heq & Hpre & Hpost).
      destruct pre as [|p pre]; cbn in Heq; injection Heq as Hr Hl.
      * exists [], (y :: l). rewrite <- Hr. repeat split.
        -- constructor.
        -- constructor; [exact E|].
           pose proof (first_max_bound (best :: l) _ (IH best)) as Hb.
           rewrite <- Hr in Hb. inversion Hb; assumption.
      * subst p. exists (best :: y :: pre), post. repeat split.
        -- cbn. do 2 f_equal. exact Hl.
        -- inversion Hpre as [|? ? Hb Hrest]; subst.
           constructor; [exact Hb|].
           constructor; [|exact Hrest]. eapply Qle_lt_trans; eassumption.
        -- exact Hpost.
Qed.

Lemma max_by_first_max (l : list A) (r : A) :
  max_by key l = Ok r -> first_max key l r.
Proof.
  destruct l as [|x l]; cbn; [discriminate|].
  intros [= <-]. apply max_from_first_max.
Qed.

Lemma max_from_in (l : list A) :
  forall best, In (max_from key best l) (best :: l).
Proof.
  intros best. destruct (max_from_first_max l best) as (pre & post & -> & _).
  apply in_or_app. right. left. reflexivity.
Qed.
End FirstMax.

(** ** The raw buckets in closed form *)

Lemma max_core_usage_total (metrics : SystemMetrics) :
  exists mc, max_core_usage_of metrics = Ok mc.
Proof.
  unfold max_core_usage_of.
  destruct (cpu_per_core metrics) as [|x l]; cbn; eexists; reflexivity.
Qed.

Ltac split_gt :=
  repeat match goal with
  | |- context [gt ?a ?b] => destruct (gt a b) eqn:?
  end.

Lemma score_buckets_eq (self : PerformanceMonitor) (metrics : SystemMetrics)
    (mc : Q) :
  initialised self ->
  max_core_usage_of metrics = Ok mc ->
  score_buckets self metrics
  = Ok (buckets (cpu_bucket mc metrics) (memory_bucket metrics)
                (gpu_bucket self metrics) (gpu_memory_bucket self metrics)
                0.0).
Proof.
  intros Hinit Hmc.
  unfold score_buckets, cpu_bucket, memory_bucket, gpu_bucket,
    gpu_memory_bucket.
  rewrite Hmc, Hinit.
  cbv beta iota delta
    [bind getitem get init_thresholds String.eqb Ascii.eqb Bool.eqb].
  destruct (gpu_available self); split_gt; reflexivity.
Qed.

Lemma cpu_bucket_nonneg (mc : Q) (metrics : SystemMetrics) :
  0 <= cpu_bucket mc metrics.
Proof.
  unfold cpu_bucket. cbv zeta. split_gt; qsolve.
Qed.

Lemma memory_bucket_nonneg (metrics : SystemMetrics) :
  0 <= memory_bucket metrics.
Proof.
  unfold memory_bucket. split_gt; qsolve.
Qed.

Lemma gpu_bucket_nonneg (self : PerformanceMonitor) (metrics : SystemMetrics) :
  0 <= gpu_bucket self metrics.
Proof.
  unfold gpu_bucket. destruct (gpu_available self); split_gt; qsolve.
Qed.

Lemma gpu_memory_bucket_nonneg (self : PerformanceMonitor)
    (metrics : SystemMetrics) :
  0 <= gpu_memory_bucket self metrics.
Proof.
  unfold gpu_memory_bucket.
  destruct (gpu_available self); split_gt; qsolve.
Qed.

(** ** The stages of the classifier on a five-bucket map *)

Lemma total_eq (c me g gm n : Q) : total c me g gm n == c + me + g + gm + n.
Proof. unfold total, Py.sum. cbn. ring. Qed.

Lemma none_rule_buckets (c me g gm : Q) :
  none_rule (buckets c me g gm 0.0)
  = Ok (buckets c me g gm (if lt (raw_max c me g gm) 0.3 then 1.0 else 0.0)).
Proof.
  unfold none_rule, Py.max, max_by, values, buckets. cbn [map snd bind].
  fold (raw_max c me g gm).
  destruct (lt (raw_max c me g gm) 0.3); reflexivity.
Qed.

Lemma raw_max_below (c me g gm : Q) :
  lt (raw_max c me g gm) 0.3 = true
  <-> c < 0.3 /\ me < 0.3 /\ g < 0.3 /\ gm < 0.3.
Proof.
  rewrite lt_true. unfold raw_max. split.
  - intros Hlt.
    pose proof (first_max_bound _ _ _
                  (max_from_first_max (fun x => x) [me; g; gm; 0.0] c)) as Hb.
    repeat match goal with
    | H : Forall _ (_ :: _) |- _ => inversion H; clear H; subst
    end.
    repeat split; eapply Qle_lt_trans; eassumption.
  - intros (Hc & Hme & Hg & Hgm).
    pose proof (max_from_in (fun x => x) [me; g; gm; 0.0] c) as Hin.
    cbn [In] in Hin.
    destruct Hin as [<- | [<- | [<- | [<- | [<- | []]]]]];
      solve [assumption | reflexivity].
Qed.

Lemma normalize_buckets (c me g gm n : Q) :
  0 < total c me g gm n ->
  normalize (buckets c me g gm n)
  = Ok (buckets (c / total c me g gm n) (me / total c me g gm n)
                (g / total c me g gm n) (gm / total c me g gm n)
                (n / total c me g gm n)).
Proof.
  intros Hpos. unfold normalize. fold (total c me g gm n).
  apply gt_true in Hpos as Hgt. rewrite Hgt.
  assert (Hnz : ~ total c me g gm n == 0) by lra.
  unfold items, buckets. cbn [divide_all].
  rewrite !(truediv_ok _ _ Hnz). reflexivity.
Qed.

Lemma total_positive (c me g gm : Q) :
  0 <= c -> 0 <= me -> 0 <= g -> 0 <= gm ->
  0 < total c me g gm (if lt (raw_max c me g gm) 0.3 then 1.0 else 0.0).
Proof.
  intros Hc Hme Hg Hgm. rewrite total_eq.
  destruct (lt (raw_max c me g gm) 0.3) eqn:E.
  - lra.
  - assert (Hn : ~ (c < 0.3 /\ me < 0.3 /\ g < 0.3 /\ gm < 0.3)).
    { rewrite <- raw_max_below, E. discriminate. }
    destruct (Qlt_le_dec c 0.3); [|lra].
    destruct (Qlt_le_dec me 0.3); [|lra].
    destruct (Qlt_le_dec g 0.3); [|lra].
    destruct (Qlt_le_dec gm 0.3); [|lra].
    exfalso. apply Hn. repeat split; assumption.
Qed.

Lemma classifier_run (self : PerformanceMonitor) (metrics : SystemMetrics) :
  initialised self ->
  exists c me g gm n label, run self metrics c me g gm n label.
Proof.
  intros Hinit.
  destruct (max_core_usage_total metrics) as (mc & Hmc).
  pose proof (score_buckets_eq self metrics mc Hinit Hmc) as Hraw.
  set (c := cpu_bucket mc metrics) in *.
  set (me := memory_bucket metrics) in *.
  set (g := gpu_bucket self metrics) in *.
  set (gm := gpu_memory_bucket self metrics) in *.
  set (n := if lt (raw_max c me g gm) 0.3 then 1.0 else 0.0).
  assert (Hc : 0 <= c) by apply cpu_bucket_nonneg.
  assert (Hme : 0 <= me) by apply memory_bucket_nonneg.
  assert (Hg : 0 <= g) by apply gpu_bucket_nonneg.
  assert (Hgm : 0 <= gm) by apply gpu_memory_bucket_nonneg.
  assert (Ht : 0 < total c me g gm n) by (apply total_positive; assumption).
  pose proof (normalize_buckets c me g gm n Ht) as Hnorm.
  pose proof (none_rule_buckets c me g gm) as Hnone. fold n in Hnone.
  destruct (primary (buckets (c / total c me g gm n) (me / total c me g gm n)
                             (g / total c me g gm n) (gm / total c me g gm n)
                             (n / total c me g gm n))) as [label|e] eqn:Hp;
    [|discriminate Hp].
  exists c, me, g, gm, n, label.
  constructor; try assumption; try reflexivity.
  - intros Hoff. unfold g, gm, gpu_bucket, gpu_memory_bucket.
    rewrite Hoff. split; reflexivity.
  - unfold _analyze_bottleneck.
    rewrite Hraw. cbn [bind]. rewrite Hnone. cbn [bind].
    rewrite Hnorm. cbn [bind]. rewrite Hp. reflexivity.
Qed.

(** ** Arithmetic of normalised scores *)

Lemma div_bounds (x t : Q) : 0 < t -> 0 <= x -> x <= t -> 0 <= x / t <= 1.
Proof.
  intros Ht Hx Hxt. split.
  - apply Qle_shift_div_l; [exact Ht | lra].
  - apply Qle_shift_div_r; [exact Ht | lra].
Qed.

Lemma div_lt_iff (a b t : Q) : 0 < t -> (a / t < b / t <-> a < b).
Proof.
  intros Ht. unfold Qdiv. apply Qmult_lt_r.
  apply Qinv_lt_0_compat. exact Ht.
Qed.

Lemma div_lt_one_iff (a t : Q) : 0 < t -> (a / t < 1 <-> a < t).
Proof.
  intros Ht. rewrite <- (div_lt_iff a t t Ht).
  assert (E : t / t == 1) by (field; lra).
  rewrite E. reflexivity.
Qed.

Lemma div_zero (x t : Q) : x == 0 -> x / t == 0.
Proof. intros E. unfold Qdiv. rewrite E. apply Qmult_0_l. Qed.

(** ** The classifier *)

Lemma classifier_first_max (self : PerformanceMonitor)
    (metrics : SystemMetrics) :
  initialised self ->
  exists label score scores,
    _analyze_bottleneck self metrics = Ok (label, scores)
    /\ keys scores = labels
    /\ first_max (fun it => snd it) (items scores) (label, score).
Proof.
  intros Hinit.
  destruct (classifier_run self metrics Hinit)
    as (c & me & g & gm & n & label & R).
  pose proof (run_primary _ _ _ _ _ _ _ _ R) as Hp.
  unfold primary in Hp.
  destruct (max_by _ _) as [[k v]|e] eqn:Hmax; cbn [bind fst] in Hp;
    [|discriminate Hp].
  injection Hp as ->.
  exists label, v. eexists. split; [exact (run_result _ _ _ _ _ _ _ _ R)|].
  split; [reflexivity|].
  apply max_by_first_max. exact Hmax.
Qed.

(** Two runs on fixed inputs: an idle machine and one short of memory. *)
Example idle_machine_is_balanced :
  exists scores,
    _analyze_bottleneck cpu_only_monitor idle_snapshot = Ok ("None", scores)
    /\ Forall2 Qeq (values scores) [0; 0; 0; 0; 1].
Proof.
  eexists. split; [vm_compute; reflexivity|].
  cbn [values map snd]. repeat (constructor; [reflexivity|]). constructor.
Qed.

Example memory_pressure_is_memory_bound :
  exists raw scores,
    score_buckets cpu_only_monitor memory_pressure_snapshot = Ok raw
    /\ Forall2 Qeq (values raw) [0; 10 # 15; 0; 0; 0]
    /\ _analyze_bottleneck cpu_only_monitor memory_pressure_snapshot
       = Ok ("Memory", scores)
    /\ Forall2 Qeq (values scores) [0; 1; 0; 0; 0].
Proof.
  do 2 eexists. split; [vm_compute; reflexivity|].
  split; [cbn [values map snd];
          repeat (constructor; [reflexivity|]); constructor|].
  split; [vm_compute; reflexivity|].
  cbn [values map snd]. repeat (constructor; [reflexivity|]). constructor.
Qed.

Example rounding_of_core_usage :
  format_0f 90.5 = "90" /\ format_0f 91.5 = "92" /\ format_0f 80.51 = "81".
Proof. repeat split; reflexivity. Qed.

(** C1. The classifier returns, for every snapshot, a label and a score
    map over the five labels in declaration order, and the label is the
    first entry of maximal score: every entry before it is strictly
    smaller, every entry after it is no larger.  The same holds between
    the [bottleneck] and [bottleneck_score] fields of every snapshot the
    collector builds. *)
Theorem bottleneck_is_first_argmax (self : PerformanceMonitor) :
  initialised self ->
  (forall metrics,
     exists label score scores,
       _analyze_bottleneck self metrics = Ok (label, scores)
       /\ keys scores = labels
       /\ first_max (fun it => snd it) (items scores) (label, score))
  /\ (forall r,
        exists snapshot score,
          _collect_metrics self r = Ok snapshot
          /\ keys (bottleneck_score snapshot) = labels
          /\ first_max (fun it => snd it) (items (bottleneck_score snapshot))
               (bottleneck snapshot, score)).
Proof.
  intros Hinit. split.
  - intros metrics. apply classifier_first_max. exact Hinit.
  - intros r. unfold _collect_metrics.
    destruct (_get_gpu_metrics _ _) as [[[util mem] used] temp].
    destruct (match r_falcon r with
              | Some (cpu, Some rss) => _
              | Some (cpu, None) => _
              | None => _
              end) as [falcon_cpu falcon_mb].
    match goal with
    | |- context [_analyze_bottleneck self ?m] =>
        destruct (classifier_first_max self m Hinit)
          as (label & score & scores & -> & Hkeys & Hmax)
    end.
    cbn [bind fst snd]. eexists. exists score.
    split; [reflexivity|]. split; [exact Hkeys | exact Hmax].
Qed.

Lemma bottleneck_is_first_argmax_witness :
  (forall metrics,
     exists label score scores,
       _analyze_bottleneck default_monitor metrics = Ok (label, scores)
       /\ keys scores = labels
       /\ first_max (fun it => snd it) (items scores) (label, score))
  /\ (forall r,
        exists snapshot score,
          _collect_metrics default_monitor r = Ok snapshot
          /\ keys (bottleneck_score snapshot) = labels
          /\ first_max (fun it => snd it) (items (bottleneck_score snapshot))
               (bottleneck snapshot, score)).
Proof.
  apply (bottleneck_is_first_argmax default_monitor).
  reflexivity.
Defined.

(** C2. For every snapshot the returned score map has exactly the five
    labels, every score lies between 0 and 1, and the scores add up
    to 1. *)
Theorem scores_are_a_distribution (self : PerformanceMonitor)
    (metrics : SystemMetrics) :
  initialised self ->
  exists label scores,
    _analyze_bottleneck self metrics = Ok (label, scores)
    /\ keys scores = labels
    /\ Forall (fun v => 0 <= v <= 1) (values scores)
    /\ Py.sum (values scores) == 1.
Proof.
  intros Hinit.
  destruct (classifier_run self metrics Hinit)
    as (c & me & g & gm & n & label & R).
  destruct R as [_ Hc Hme Hg Hgm _ _ Hn Ht _ _ Hres].
  pose proof (total_eq c me g gm n) as Hsum.
  assert (Hn0 : 0 <= n) by (rewrite Hn; destruct (lt _ _); lra).
  set (T := total c me g gm n) in *.
  exists label. eexists. split; [exact Hres|]. split; [reflexivity|]. split.
  - cbn [values map snd buckets].
    repeat constructor; apply div_bounds; solve [assumption | lra].
  - unfold Py.sum, values, buckets. cbn [map snd fold_left].
    transitivity ((c + me + g + gm + n) / T); [field; lra|].
    rewrite <- Hsum. field. lra.
Qed.

Lemma scores_are_a_distribution_witness :
  exists label scores,
    _analyze_bottleneck default_monitor saturated_core_snapshot
    = Ok (label, scores)
    /\ keys scores = labels
    /\ Forall (fun v => 0 <= v <= 1) (values scores)
    /\ Py.sum (values scores) == 1.
Proof.
  apply (scores_are_a_distribution default_monitor saturated_core_snapshot).
  reflexivity.
Defined.

(** C3. When the GPU is unavailable, whatever GPU utilisation and GPU
    memory percentage the snapshot carries, the raw GPU and GPU_Memory
    buckets stay at their initial 0.0 and both normalised scores are 0. *)
Theorem gpu_unavailable_scores_zero (self : PerformanceMonitor)
    (metrics : SystemMetrics) :
  initialised self ->
  gpu_available self = false ->
  exists raw label scores g gm,
    score_buckets self metrics = Ok raw
    /\ getitem raw "GPU" = Ok 0.0
    /\ getitem raw "GPU_Memory" = Ok 0.0
    /\ _analyze_bottleneck self metrics = Ok (label, scores)
    /\ getitem scores "GPU" = Ok g /\ g == 0
    /\ getitem scores "GPU_Memory" = Ok gm /\ gm == 0.
Proof.
  intros Hinit Hoff.
  destruct (classifier_run self metrics Hinit)
    as (c & me & g & gm & n & label & R).
  destruct (run_no_gpu _ _ _ _ _ _ _ _ R Hoff) as [Eg Egm].
  pose proof (run_raw _ _ _ _ _ _ _ _ R) as Hraw.
  pose proof (run_result _ _ _ _ _ _ _ _ R) as Hres.
  subst g gm.
  do 5 eexists.
  split; [exact Hraw|]. split; [reflexivity|]. split; [reflexivity|].
  split; [exact Hres|].
  split; [reflexivity|]. split; [apply div_zero; reflexivity|].
  split; [reflexivity|]. apply div_zero; reflexivity.
Qed.

Lemma gpu_unavailable_scores_zero_witness :
  exists raw label scores g gm,
    score_buckets cpu_only_monitor gpu_busy_snapshot = Ok raw
    /\ getitem raw "GPU" = Ok 0.0
    /\ getitem raw "GPU_Memory" = Ok 0.0
    /\ _analyze_bottleneck cpu_only_monitor gpu_busy_snapshot
       = Ok (label, scores)
    /\ getitem scores "GPU" = Ok g /\ g == 0
    /\ getitem scores "GPU_Memory" = Ok gm /\ gm == 0.
Proof.
  apply (gpu_unavailable_scores_zero cpu_only_monitor gpu_busy_snapshot);
    reflexivity.
Defined.



Lemma primary_none_iff (a b c d e : Q) :
  primary (buckets a b c d e) = Ok "None"
  <-> a < e /\ b < e /\ c < e /\ d < e.
Proof.
  unfold primary, buckets, items, max_by. cbn [max_from bind snd].
  repeat (match goal with
          | |- context [if gt ?x ?y then _ else _] =>
              is_var x; is_var y; destruct (gt x y) eqn:?
          end; cbn [snd fst]).
  all: qprop; split;
    [ intros H; try discriminate H; repeat split; lra
    | intros (? & ? & ? & ?); try reflexivity; exfalso; lra ].
Qed.

Lemma max_from_below (l : list Q) (best bound : Q) :
  max_from (fun x => x) best l < bound
  <-> Forall (fun x => x < bound) (best :: l).
Proof.
  split.
  - intros Hlt.
    pose proof (first_max_bound _ _ _
                  (max_from_first_max (fun x => x) l best)) as Hb.
    eapply Forall_impl; [|exact Hb].
    intros x Hx. cbv beta in Hx. eapply Qle_lt_trans; eassumption.
  - intros Hall. rewrite Forall_forall in Hall.
    apply Hall. apply max_from_in.
Qed.

(** C7. With a maximal single-core usage of 90, an overall CPU usage of
    50, no target-process CPU and memory, GPU and GPU memory below their
    thresholds, the raw CPU bucket is 0.8 and the other buckets are 0.0,
    the None rule leaves the map as it is, and the classifier returns the
    label CPU with a CPU score of 1 and all other scores 0. *)
Theorem saturated_core_is_cpu_bound (self : PerformanceMonitor)
    (metrics : SystemMetrics) (max_core : Q) :
  initialised self ->
  max_core_usage_of metrics = Ok max_core ->
  max_core == 90 ->
  cpu_percent metrics == 50 ->
  falcon_bms_cpu metrics == 0 ->
  memory_percent metrics < 85 ->
  gpu_utilization metrics < 90 ->
  gpu_memory_percent metrics < 85 ->
  exists c c' me' g' gm' n',
    score_buckets self metrics = Ok (buckets c 0.0 0.0 0.0 0.0)
    /\ c == 0.8
    /\ none_rule (buckets c 0.0 0.0 0.0 0.0) = Ok (buckets c 0.0 0.0 0.0 0.0)
    /\ _analyze_bottleneck self metrics
       = Ok ("CPU", buckets c' me' g' gm' n')
    /\ c' == 1 /\ me' == 0 /\ g' == 0 /\ gm' == 0 /\ n' == 0.
Proof.
  intros Hinit Hmc Hcore Hcpu Hfalcon Hmem Hgpu Hgmem.
  pose proof (score_buckets_eq self metrics max_core Hinit Hmc) as Hraw.
  assert (Ec : cpu_bucket max_core metrics = 0.0 + 0.8).
  { unfold cpu_bucket.
    assert (E1 : gt max_core 85.0 = true) by (apply gt_true; lra).
    assert (E2 : gt (cpu_percent metrics) 85.0 = false)
      by (apply gt_false; lra).
    assert (E3 : gt (falcon_bms_cpu metrics) 150.0 = false)
      by (apply gt_false; lra).
    assert (E4 : gt (falcon_bms_cpu metrics) 100.0 = false)
      by (apply gt_false; lra).
    rewrite E1, E2, E3, E4. reflexivity. }
  assert (Em : memory_bucket metrics = 0.0).
  { unfold memory_bucket.
    assert (E : gt (memory_percent metrics) 85.0 = false)
      by (apply gt_false; lra).
    rewrite E. reflexivity. }
  assert (Eg : gpu_bucket self metrics = 0.0).
  { unfold gpu_bucket.
    assert (E : gt (gpu_utilization metrics) 90.0 = false)
      by (apply gt_false; lra).
    rewrite E. destruct (gpu_available self); reflexivity. }
  assert (Egm : gpu_memory_bucket self metrics = 0.0).
  { unfold gpu_memory_bucket.
    assert (E : gt (gpu_memory_percent metrics) 85.0 = false)
      by (apply gt_false; lra).
    rewrite E. destruct (gpu_available self); reflexivity. }
  rewrite Ec, Em, Eg, Egm in Hraw.
  do 6 eexists.
  split; [exact Hraw|]. split; [reflexivity|]. split; [reflexivity|].
  split.
  - unfold _analyze_bottleneck. rewrite Hraw. vm_compute. reflexivity.
  - repeat split; reflexivity.
Qed.

Lemma saturated_core_is_cpu_bound_witness :
  exists c c' me' g' gm' n',
    score_buckets default_monitor saturated_core_snapshot
    = Ok (buckets c 0.0 0.0 0.0 0.0)
    /\ c == 0.8
    /\ none_rule (buckets c 0.0 0.0 0.0 0.0) = Ok (buckets c 0.0 0.0 0.0 0.0)
    /\ _analyze_bottleneck default_monitor saturated_core_snapshot
       = Ok ("CPU", buckets c' me' g' gm' n')
    /\ c' == 1 /\ me' == 0 /\ g' == 0 /\ gm' == 0 /\ n' == 0.
Proof.
  apply (saturated_core_is_cpu_bound default_monitor saturated_core_snapshot
           90);
    solve [reflexivity | vm_compute; reflexivity].
Defined.

(** C9. For every snapshot the classifier selects the label None exactly
    when the maximum of the raw CPU, Memory, GPU and GPU_Memory buckets is
    strictly below 0.3.  In that case the None bucket holds 1.0 next to
    the unchanged other buckets, and the normalised None score is below 1
    exactly when one of the other buckets is not zero. *)
Theorem none_iff_all_raw_below (self : PerformanceMonitor)
    (metrics : SystemMetrics) :
  initialised self ->
  exists c me g gm n raw_maximum label scores,
    score_buckets self metrics = Ok (buckets c me g gm 0.0)
    /\ Py.max [c; me; g; gm] = Ok raw_maximum
    /\ none_rule (buckets c me g gm 0.0) = Ok (buckets c me g gm n)
    /\ _analyze_bottleneck self metrics = Ok (label, scores)
    /\ (label = "None" <-> raw_maximum < 0.3)
    /\ (label = "None" ->
        n = 1.0
        /\ exists v, getitem scores "None" = Ok v
           /\ (v < 1 <-> ~ (c == 0 /\ me == 0 /\ g == 0 /\ gm == 0))).
Proof.
  intros Hinit.
  destruct (classifier_run self metrics Hinit)
    as (c & me & g & gm & n & label & R).
  destruct R as [Hraw Hc Hme Hg Hgm _ Hnone Hn Ht _ Hp Hres].
  pose proof (total_eq c me g gm n) as Hsum.
  set (T := total c me g gm n) in *.
  assert (Hsel : label = "None" <-> c < n /\ me < n /\ g < n /\ gm < n).
  { rewrite <- (div_lt_iff c n T Ht), <- (div_lt_iff me n T Ht),
      <- (div_lt_iff g n T Ht), <- (div_lt_iff gm n T Ht).
    rewrite <- primary_none_iff, Hp.
    split; [intros ->; reflexivity | intros [= ->]; reflexivity]. }
  assert (Hmx : max_from (fun x => x) c [me; g; gm] < 0.3
                <-> c < 0.3 /\ me < 0.3 /\ g < 0.3 /\ gm < 0.3).
  { rewrite max_from_below. split.
    - intros H.
      repeat match goal with
      | H : Forall _ (_ :: _) |- _ => inversion H; clear H; subst
      end.
      repeat split; assumption.
    - intros (? & ? & ? & ?). repeat constructor; assumption. }
  assert (Hfire : label = "None" <-> lt (raw_max c me g gm) 0.3 = true).
  { rewrite Hsel, raw_max_below.
    destruct (lt (raw_max c me g gm) 0.3) eqn:E; subst n.
    - apply raw_max_below in E. destruct E as (? & ? & ? & ?).
      split; intros _; repeat split; lra.
    - split; [intros (? & _); lra|].
      intros H. apply raw_max_below in H. congruence. }
  exists c, me, g, gm, n, (max_from (fun x => x) c [me; g; gm]), label.
  eexists.
  split; [exact Hraw|]. split; [reflexivity|]. split; [exact Hnone|].
  split; [exact Hres|]. split.
  - rewrite Hmx, <- raw_max_below. exact Hfire.
  - intros Hl. apply Hfire in Hl. rewrite Hl in Hn.
    split; [exact Hn|].
    eexists. split; [reflexivity|].
    rewrite (div_lt_one_iff n T Ht), Hsum. subst n. split.
    + intros Hlt (Ec & Eme & Eg & Egm). lra.
    + intros Hnz.
      destruct (Qlt_le_dec 0 c); [lra|].
      destruct (Qlt_le_dec 0 me); [lra|].
      destruct (Qlt_le_dec 0 g); [lra|].
      destruct (Qlt_le_dec 0 gm); [lra|].
      exfalso. apply Hnz. repeat split; lra.
Qed.

Lemma none_iff_all_raw_below_witness :
  exists c me g gm n raw_maximum label scores,
    score_buckets default_monitor idle_snapshot = Ok (buckets c me g gm 0.0)
    /\ Py.max [c; me; g; gm] = Ok raw_maximum
    /\ none_rule (buckets c me g gm 0.0) = Ok (buckets c me g gm n)
    /\ _analyze_bottleneck default_monitor idle_snapshot = Ok (label, scores)
    /\ (label = "None" <-> raw_maximum < 0.3)
    /\ (label = "None" ->
        n = 1.0
        /\ exists v, getitem scores "None" = Ok v
           /\ (v < 1 <-> ~ (c == 0 /\ me == 0 /\ g == 0 /\ gm == 0))).
Proof.
  apply (none_iff_all_raw_below default_monitor idle_snapshot).
  reflexivity.
Defined.

(** ** The recommendation generator *)

Lemma recommendations_total (self : PerformanceMonitor)
    (metrics : SystemMetrics) :
  exists recs, _get_recommendations self metrics = Ok recs.
Proof.
  unfold _get_recommendations.
  destruct (max_core_usage_total metrics) as (mc & ->). cbn [bind].
  repeat match goal with
  | |- context [if String.eqb ?a ?b then _ else _] =>
      destruct (String.eqb a b)
  end; split_gt; eexists; reflexivity.
Qed.

Lemma recommendations_reads (self self' : PerformanceMonitor)
    (metrics metrics' : SystemMetrics) :
  cpu_per_core metrics = cpu_per_core metrics' ->
  bottleneck metrics = bottleneck metrics' ->
  _get_recommendations self metrics = _get_recommendations self' metrics'.
Proof.
  intros Hcores Hlabel.
  unfold _get_recommendations, max_core_usage_of.
  rewrite Hcores, Hlabel. reflexivity.
Qed.

(** A call on the store returns what the function of the values returns,
    in a new list, and writes nowhere else. *)
Ltac run_on_store :=
  cbv beta iota; cbn [Py.bind truthy st_metrics st_lists st_next st_monitor];
  repeat match goal with
  | H : _ = true |- _ => progress rewrite H
  | H : _ = false |- _ => progress rewrite H
  | H : cpu_per_core _ = _ |- _ => progress rewrite H
  end.

Lemma recommendations_on_store (st : Store) (metrics : nat) :
  exists recs st',
    _get_recommendations (st_monitor st) (st_metrics st metrics) = Ok recs
    /\ OnStore._get_recommendations metrics st = Ok (st_next st, st')
    /\ only_allocates st recs st'.
Proof.
  unfold _get_recommendations, max_core_usage_of,
    OnStore._get_recommendations, OnStore.bind, OnStore.new_list,
    OnStore.getattr, OnStore.lift, OnStore.ret, OnStore.append,
    OnStore.extend.
  unfold Py.max, max_by.
  destruct (cpu_per_core (st_metrics st metrics)) as [|x l] eqn:Ecores;
    cbn [truthy]; repeat run_on_store.
  all: repeat (match goal with
               | |- context [if String.eqb ?a ?b then _ else _] =>
                   destruct (String.eqb a b) eqn:?
               | |- context [if gt ?a ?b then _ else _] =>
                   destruct (gt a b) eqn:?
               end; repeat run_on_store).
  all: do 2 eexists; (split; [reflexivity|]); (split; [reflexivity|]);
    unfold only_allocates; cbn [st_metrics st_lists st_next st_monitor];
    (split; [reflexivity|]); (split; [reflexivity|]);
    (split;
     [ intros a Ha; apply Nat.eqb_neq in Ha; rewrite ?Ha; reflexivity
     | split; [rewrite ?Nat.eqb_refl; reflexivity | reflexivity] ]).
Qed.

(** C8. A call of the generator, on any store of objects, returns a new
    list and writes nowhere else: the monitor, every snapshot (the one it
    was given included) and every list that existed are as they were.  Two
    calls, on whatever stores and at whatever addresses, whose snapshots
    agree on the per-core list and the label return the same sequence of
    strings, the one the function of the values gives. *)
Theorem recommendations_pure (st st' : Store) (metrics metrics' : nat) :
  cpu_per_core (st_metrics st metrics)
  = cpu_per_core (st_metrics st' metrics') ->
  bottleneck (st_metrics st metrics) = bottleneck (st_metrics st' metrics') ->
  exists recs after after',
    OnStore._get_recommendations metrics st = Ok (st_next st, after)
    /\ OnStore._get_recommendations metrics' st' = Ok (st_next st', after')
    /\ st_lists after (st_next st) = recs
    /\ st_lists after' (st_next st') = recs
    /\ only_allocates st recs after
    /\ only_allocates st' recs after'
    /\ _get_recommendations (st_monitor st) (st_metrics st metrics) = Ok recs.
Proof.
  intros Hcores Hlabel.
  destruct (recommendations_on_store st metrics)
    as (recs & after & Hv & Hrun & Hframe).
  destruct (recommendations_on_store st' metrics')
    as (recs' & after' & Hv' & Hrun' & Hframe').
  rewrite (recommendations_reads (st_monitor st) (st_monitor st')
             _ _ Hcores Hlabel) in Hv.
  rewrite Hv in Hv'. injection Hv' as <-.
  exists recs, after, after'.
  split; [exact Hrun|]. split; [exact Hrun'|].
  split; [apply Hframe|]. split; [apply Hframe'|].
  split; [exact Hframe|]. split; [exact Hframe'|].
  rewrite (recommendations_reads (st_monitor st) (st_monitor st')
             _ _ Hcores Hlabel).
  exact Hv.
Qed.

Lemma recommendations_pure_witness :
  exists recs after after',
    OnStore._get_recommendations 0 quiet_store
    = Ok (st_next quiet_store, after)
    /\ OnStore._get_recommendations 3 busy_store
       = Ok (st_next busy_store, after')
    /\ st_lists after (st_next quiet_store) = recs
    /\ st_lists after' (st_next busy_store) = recs
    /\ only_allocates quiet_store recs after
    /\ only_allocates busy_store recs after'
    /\ _get_recommendations (st_monitor quiet_store)
         (st_metrics quiet_store 0) = Ok recs.
Proof.
  apply (recommendations_pure quiet_store busy_store 0 3); reflexivity.
Defined.

(** The store does record a write: relabelling a snapshot, as the
    collector does with the one it builds, changes what the generator
    then returns for it. *)
Example a_write_shows_on_the_store :
  exists relabelled after,
    OnStore.set_classification 3 "Memory" [] busy_store
    = Ok (tt, relabelled)
    /\ bottleneck (st_metrics relabelled 3) = "Memory"
    /\ OnStore._get_recommendations 3 relabelled = Ok (5%nat, after)
    /\ hd_error (st_lists after 5)
       = Some "Memory shortage detected - close unnecessary applications".
Proof.
  do 2 eexists. split; [reflexivity|]. split; [reflexivity|].
  split; reflexivity.
Qed.

Example recommendations_on_busy_store :
  exists after,
    OnStore._get_recommendations 3 busy_store = Ok (5%nat, after)
    /\ st_lists after 5
       = ["Single-core bottleneck detected (Core at 90%)";
          "Falcon BMS is limited by single-threaded performance";
          "Consider overclocking your CPU for better single-core performance";
          "Lower CPU-intensive settings: AI traffic, ground objects, weather complexity"]
    /\ st_lists after 4 = ["kept"].
Proof. eexists. split; [reflexivity|]. split; reflexivity. Qed.

(** C10. On a snapshot whose per-core list is empty, [max] itself would
    raise, but the guard yields a maximal single-core usage of 0, and both
    the classifier and the recommendation generator return a result. *)
Theorem empty_core_list_is_handled (self : PerformanceMonitor)
    (metrics : SystemMetrics) :
  initialised self ->
  cpu_per_core metrics = [] ->
  Py.max (cpu_per_core metrics) = Raise ValueError
  /\ max_core_usage_of metrics = Ok 0
  /\ (exists label scores,
        _analyze_bottleneck self metrics = Ok (label, scores))
  /\ (exists recs, _get_recommendations self metrics = Ok recs).
Proof.
  intros Hinit Hempty. split; [rewrite Hempty; reflexivity|].
  split; [unfold max_core_usage_of; rewrite Hempty; reflexivity|].
  split.
  - destruct (classifier_run self metrics Hinit)
      as (c & me & g & gm & n & label & R).
    exists label. eexists. exact (run_result _ _ _ _ _ _ _ _ R).
  - apply recommendations_total.
Qed.

Lemma empty_core_list_is_handled_witness :
  Py.max (cpu_per_core no_cores_snapshot) = Raise ValueError
  /\ max_core_usage_of no_cores_snapshot = Ok 0
  /\ (exists label scores,
        _analyze_bottleneck default_monitor no_cores_snapshot
        = Ok (label, scores))
  /\ (exists recs,
        _get_recommendations default_monitor no_cores_snapshot = Ok recs).
Proof.
  apply (empty_core_list_is_handled default_monitor no_cores_snapshot);
    reflexivity.
Defined.

(** ** The history store *)

Section Deque.
Context {A : Type}.
Implicit Types (d : deque A) (l ps : list A).

Lemma keep_last_length n l :
  List.length (keep_last n l) = Nat.min n (List.length l).
Proof. unfold keep_last. rewrite length_skipn. lia. Qed.

Lemma keep_last_all n l :
  (List.length l <= n)%nat -> keep_last n l = l.
Proof.
  intros H. unfold keep_last.
  replace (List.length l - n)%nat with 0%nat by lia. reflexivity.
Qed.

Lemma keep_last_app n l ps :
  keep_last n (keep_last n l ++ ps) = keep_last n (l ++ ps).
Proof.
  destruct (Nat.le_gt_cases (List.length l) n) as [Hle | Hgt].
  - rewrite (keep_last_all n l Hle). reflexivity.
  - unfold keep_last at 1 3.
    rewrite !length_app, keep_last_length.
    replace (Nat.min n (List.length l)) with n by lia.
    replace (n + List.length ps - n)%nat with (List.length ps) by lia.
    replace (List.length l + List.length ps - n)%nat
      with (List.length ps + (List.length l - n))%nat by lia.
    rewrite <- skipn_skipn. f_equal.
    unfold keep_last. rewrite skipn_app.
    replace (List.length l - n - List.length l)%nat with 0%nat by lia.
    reflexivity.
Qed.

Lemma deque_append_elems d x :
  (List.length (elems d) <= maxlen d)%nat ->
  elems (deque_append d x) = keep_last (maxlen d) (elems d ++ [x]).
Proof.
  intros Hwf. unfold deque_append, keep_last. cbn [elems].
  rewrite length_app. cbn [List.length].
  destruct (Nat.ltb_spec (maxlen d) (List.length (elems d) + 1)) as [H | H].
  - replace (List.length (elems d) + 1 - maxlen d)%nat with 1%nat by lia.
    reflexivity.
  - replace (List.length (elems d) + 1 - maxlen d)%nat with 0%nat by lia.
    reflexivity.
Qed.

Lemma deque_append_wf d x :
  (List.length (elems d) <= maxlen d)%nat ->
  (List.length (elems (deque_append d x)) <= maxlen (deque_append d x))%nat.
Proof.
  intros Hwf. rewrite (deque_append_elems d x Hwf), keep_last_length.
  cbn [deque_append maxlen]. lia.
Qed.

Lemma appends_elems ps :
  forall d,
    (List.length (elems d) <= maxlen d)%nat ->
    maxlen (fold_left deque_append ps d) = maxlen d
    /\ elems (fold_left deque_append ps d)
       = keep_last (maxlen d) (elems d ++ ps).
Proof.
  induction ps as [|x ps IH]; intros d Hwf; cbn [fold_left].
  - rewrite app_nil_r. split; [reflexivity|].
    symmetry. apply keep_last_all. exact Hwf.
  - destruct (IH (deque_append d x) (deque_append_wf d x Hwf)) as [Hm He].
    split; [exact Hm|].
    rewrite He, (deque_append_elems d x Hwf). cbn [deque_append maxlen].
    rewrite keep_last_app, <- app_assoc. reflexivity.
Qed.

Lemma last_item_keep_last n l :
  (1 <= n)%nat -> last_item (keep_last n l) = last_item l.
Proof.
  intros Hn. destruct l as [|x l] using rev_ind; [reflexivity|].
  clear IHl. unfold keep_last. rewrite length_app. cbn [List.length].
  rewrite skipn_app.
  replace (List.length l + 1 - n - List.length l)%nat with 0%nat by lia.
  cbn [skipn]. unfold last_item. rewrite !rev_unit. reflexivity.
Qed.
End Deque.

Lemma history_after_samples (ps : list SystemMetrics) :
  forall self,
    metrics_history (fold_left record_metrics ps self)
    = fold_left deque_append ps (metrics_history self).
Proof.
  induction ps as [|x ps IH]; intros self; cbn [fold_left]; [reflexivity|].
  rewrite IH. reflexivity.
Qed.

(** Every monitor the program can reach from [__init__] keeps the
    thresholds of [__init__] and a history within its capacity. *)
Lemma record_metrics_initialised (self : PerformanceMonitor)
    (metrics : SystemMetrics) :
  initialised self -> initialised (record_metrics self metrics).
Proof. intros H. exact H. Qed.

Lemma record_metrics_wf (self : PerformanceMonitor) (metrics : SystemMetrics) :
  history_wf self -> history_wf (record_metrics self metrics).
Proof.
  unfold history_wf. cbn [record_metrics metrics_history].
  apply deque_append_wf.
Qed.

Lemma monitor_loop_invariant (rs : list Readings) :
  forall self,
    initialised self /\ history_wf self ->
    initialised (_monitor_loop self rs) /\ history_wf (_monitor_loop self rs).
Proof.
  induction rs as [|r rs IH]; intros self [Hi Hw]; cbn [_monitor_loop];
    [split; assumption|].
  destruct (running self); [|split; assumption].
  apply IH. unfold monitor_iteration.
  destruct (_collect_metrics self r) as [metrics|e]; [|split; assumption].
  split; [apply record_metrics_initialised | apply record_metrics_wf];
    assumption.
Qed.

Lemma init_invariant (si : Q) (hs : nat) (gpu : bool) :
  initialised (__init__ si hs gpu) /\ history_wf (__init__ si hs gpu).
Proof. split; [reflexivity | unfold history_wf; cbn; lia]. Qed.

Lemma fresh_history (si : Q) (hs : nat) (gpu : bool)
    (ps : list SystemMetrics) :
  elems (metrics_history (fold_left record_metrics ps (__init__ si hs gpu)))
  = keep_last hs ps.
Proof.
  rewrite history_after_samples. cbn [__init__ metrics_history].
  destruct (appends_elems ps (deque_new hs)) as [_ He];
    [cbn; lia | exact He].
Qed.

(** C5. Into a history that respects its capacity, [capacity + 1]
    samples are recorded.  Afterwards the history holds exactly [capacity]
    samples: all the recorded ones but the first, in the order of
    recording.  When the samples were recorded with strictly increasing
    timestamps, the history is strictly increasing by timestamp and the
    first recorded sample is no longer in it. *)
Theorem capacity_plus_one_samples (self : PerformanceMonitor)
    (ps : list SystemMetrics) :
  history_wf self ->
  List.length ps = S (maxlen (metrics_history self)) ->
  exists oldest kept,
    elems (metrics_history (fold_left record_metrics ps self)) = kept
    /\ maxlen (metrics_history (fold_left record_metrics ps self))
       = maxlen (metrics_history self)
    /\ List.length kept = maxlen (metrics_history self)
    /\ ps = oldest :: kept
    /\ (increasing ps -> increasing kept /\ ~ In oldest kept).
Proof.
  intros Hwf Hlen.
  destruct ps as [|oldest kept]; [discriminate Hlen|].
  cbn [List.length] in Hlen. injection Hlen as Hlen.
  exists oldest, kept.
  rewrite history_after_samples.
  destruct (appends_elems (oldest :: kept) (metrics_history self) Hwf)
    as [Hm He].
  rewrite He, Hm. unfold history_wf in Hwf.
  repeat split.
  - unfold keep_last. rewrite length_app. cbn [List.length].
    replace (List.length (elems (metrics_history self)) + S (List.length kept)
             - maxlen (metrics_history self))%nat
      with (List.length (elems (metrics_history self)) + 1)%nat by lia.
    rewrite skipn_app, skipn_all2 by lia.
    replace (List.length (elems (metrics_history self)) + 1
             - List.length (elems (metrics_history self)))%nat
      with 1%nat by lia.
    reflexivity.
  - exact Hlen.
  - unfold increasing in *. inversion H; assumption.
  - unfold increasing in H.
    apply Sorted_StronglySorted in H;
      [|intros a b c Hab Hbc; eapply Z.lt_trans; eassumption].
    apply StronglySorted_inv in H. destruct H as [_ Hall].
    rewrite Forall_forall in Hall. intros Hin.
    specialize (Hall oldest Hin). lia.
Qed.

Lemma capacity_plus_one_samples_witness :
  exists oldest kept,
    elems (metrics_history
             (fold_left record_metrics (samples_every_second 301)
                default_monitor)) = kept
    /\ maxlen (metrics_history
                 (fold_left record_metrics (samples_every_second 301)
                    default_monitor))
       = maxlen (metrics_history default_monitor)
    /\ List.length kept = maxlen (metrics_history default_monitor)
    /\ samples_every_second 301 = oldest :: kept
    /\ (increasing (samples_every_second 301) ->
        increasing kept /\ ~ In oldest kept).
Proof.
  apply (capacity_plus_one_samples default_monitor
           (samples_every_second 301)).
  - unfold history_wf. cbn. lia.
  - reflexivity.
Defined.

(** ** The windowed analysis *)

Lemma setitem_values_inv {V : Type} (P : V -> Prop) (d : dict V)
    (k : string) (v : V) :
  Forall (fun it => P (snd it)) d -> P v ->
  Forall (fun it => P (snd it)) (setitem d k v).
Proof.
  intros Hd Hv. induction d as [|[k' v'] d IH]; cbn [setitem].
  - constructor; [exact Hv | constructor].
  - inversion Hd; subst. destruct (String.eqb k k').
    + constructor; assumption.
    + constructor; [assumption | apply IH; assumption].
Qed.

Lemma aggregate_one_filled (acc : dict Z * dict (list Q))
    (metrics : SystemMetrics) :
  filled (snd acc) -> filled (snd (aggregate_one acc metrics)).
Proof.
  destruct acc as [counts avg]. cbn [aggregate_one snd]. unfold items.
  generalize (bottleneck_score metrics) as its.
  intros its. revert avg.
  induction its as [|it its IH]; intros avg Havg; cbn [fold_left];
    [exact Havg|].
  apply IH. apply (setitem_values_inv (fun l => l <> [])); [exact Havg|].
  destruct (getdefault [] avg (fst it)); discriminate.
Qed.

Lemma aggregate_filled (recent : list SystemMetrics) :
  forall acc, filled (snd acc) ->
              filled (snd (fold_left aggregate_one recent acc)).
Proof.
  induction recent as [|m recent IH]; intros acc Hacc; cbn [fold_left];
    [exact Hacc|].
  apply IH, aggregate_one_filled, Hacc.
Qed.

Lemma averages_total (its : list (string * list Q)) :
  Forall (fun it => snd it <> []) its ->
  forall final_scores, exists r, averages its final_scores = Ok r.
Proof.
  induction its as [|[component scores] its IH]; intros Hall final_scores;
    cbn [averages].
  - eexists; reflexivity.
  - inversion Hall as [|? ? Hne Hrest]; subst. cbn [snd] in Hne.
    rewrite truediv_ok.
    + cbn [bind]. apply IH. exact Hrest.
    + destruct scores as [|s scores]; [contradiction|].
      cbn [List.length]. unfold Qeq. cbn. lia.
Qed.

Lemma last_item_total {A : Type} (l : list A) :
  l <> [] -> exists x, last_item l = Ok x.
Proof.
  intros Hne. unfold last_item. destruct (rev l) as [|x r] eqn:E.
  - apply (f_equal (@rev A)) in E. rewrite rev_involutive in E.
    contradiction.
  - eexists; reflexivity.
Qed.

Lemma summarize_total (self : PerformanceMonitor)
    (recent : list SystemMetrics) :
  recent <> [] -> exists summary, summarize self recent = Ok (Report summary).
Proof.
  intros Hne. unfold summarize.
  pose proof (aggregate_filled recent ([], []) (Forall_nil _)) as Hfilled.
  destruct (fold_left aggregate_one recent ([], [])) as [counts avg].
  cbn [snd] in Hfilled.
  destruct (averages_total (items avg) Hfilled []) as (final & ->).
  destruct (last_item_total recent Hne) as (current & ->). cbn [bind].
  destruct (recommendations_total self current) as (recs & ->).
  cbn [bind]. eexists; reflexivity.
Qed.

Lemma filter_none {A : Type} (f : A -> bool) (l : list A) :
  (forall x, In x l -> f x = false) -> filter f l = [].
Proof.
  induction l as [|x l IH]; intros H; cbn [filter]; [reflexivity|].
  rewrite (H x (or_introl eq_refl)). apply IH.
  intros y Hy. apply H. right. exact Hy.
Qed.

Lemma representable_dec (now window_seconds : Z) :
  {representable now window_seconds} + {~ representable now window_seconds}.
Proof.
  unfold representable.
  destruct (Z_le_dec (Z.abs (window_seconds / 86400)) 999999999);
    destruct (Z_le_dec 0 (now - window_seconds * 1000000));
    destruct (Z_le_dec (now - window_seconds * 1000000) datetime_max);
    first [left; lia | right; lia].
Qed.

(** The cutoff is [now - window_seconds] whenever it can be computed, and
    it can be computed exactly when the interval has at most 999999999
    days and the result is a datetime. *)
Lemma cutoff_of_Ok (now window_seconds cutoff : Z) :
  cutoff_of now window_seconds = Ok cutoff <->
  cutoff = (now - window_seconds * 1000000)%Z /\ representable now window_seconds.
Proof.
  unfold cutoff_of, timedelta_seconds, datetime_sub, representable.
  destruct (Z.abs (window_seconds / 86400) <=? 999999999)%Z eqn:Ed;
    cbn [bind].
  - destruct (0 <=? now - window_seconds * 1000000)%Z eqn:E0;
      destruct (now - window_seconds * 1000000 <=? datetime_max)%Z eqn:E1;
      cbn [andb]; split;
      try (intros [= <-]; split; [reflexivity|]; lia);
      try discriminate;
      try (intros [-> H]; try reflexivity; lia).
  - split; [discriminate|]. intros [_ H]. lia.
Qed.

Lemma cutoff_of_Raise (now window_seconds : Z) (e : exn) :
  cutoff_of now window_seconds = Raise e <->
  e = OverflowError /\ ~ representable now window_seconds.
Proof.
  destruct (cutoff_of now window_seconds) as [c|e'] eqn:E.
  - apply cutoff_of_Ok in E. destruct E as [_ Hr].
    split; [discriminate|]. intros [_ Hn]. contradiction.
  - split.
    + intros [= <-]. split.
      * unfold cutoff_of, timedelta_seconds, datetime_sub in E.
        destruct (Z.abs (window_seconds / 86400) <=? 999999999)%Z;
          cbn [bind] in E; [|congruence].
        destruct ((0 <=? now - window_seconds * 1000000)
                  && (now - window_seconds * 1000000 <=? datetime_max))%Z;
          congruence.
      * intros Hr.
        assert (H : cutoff_of now window_seconds
                    = Ok (now - window_seconds * 1000000)%Z)
          by (apply cutoff_of_Ok; split; [reflexivity | exact Hr]).
        rewrite H in E. discriminate E.
    + intros [-> _].
      unfold cutoff_of, timedelta_seconds, datetime_sub in *.
      destruct (Z.abs (window_seconds / 86400) <=? 999999999)%Z;
        cbn [bind] in *; [|congruence].
      destruct ((0 <=? now - window_seconds * 1000000)
                && (now - window_seconds * 1000000 <=? datetime_max))%Z;
        congruence.
Qed.

(** C4, as stated, fails for a history of capacity 0: the deque discards
    every sample, so the error dictionary is returned although a sample
    was recorded. *)
Lemma error_after_sample_with_zero_capacity :
  ~ error_iff_never_sampled 1.0 0 true [sample_at 1000000] 2000000 30.
Proof.
  unfold error_iff_never_sampled. intros [H _].
  assert (E : [sample_at 1000000] = []);
    [apply H; eexists; reflexivity | discriminate E].
Qed.

(** C4, as stated, also fails for a window that takes the cutoff out of
    the range of [datetime]: with four samples recorded and a window of
    minus 10^12 seconds, no stored sample is at or after the cutoff, yet
    the analysis does not summarise the latest sample: it raises
    [OverflowError]. *)
Lemma overflow_instead_of_latest :
  ~ fallback_on_latest 1.0 3 true four_samples autumn_2026 (-1000000000000).
Proof.
  unfold fallback_on_latest. intros H.
  destruct H as (latest & Hl & Hg).
  - discriminate.
  - intros m Hm. vm_compute in Hm.
    destruct Hm as [<-|[<-|[<-|[]]]]; vm_compute; reflexivity.
  - vm_compute in Hl. injection Hl as <-.
    vm_compute in Hg. discriminate Hg.
Qed.

(** C4, as stated, has two failures: a history of capacity 0, and a
    window whose cutoff is not a datetime. *)
Lemma windowed_analysis_counterexamples :
  ~ error_iff_never_sampled 1.0 0 true [sample_at 1000000] 2000000 30
  /\ ~ fallback_on_latest 1.0 3 true four_samples autumn_2026
         (-1000000000000).
Proof.
  split;
    [exact error_after_sample_with_zero_capacity
    | exact overflow_instead_of_latest].
Qed.

(** C4, amended.  For a monitor whose history has capacity at least 1:
    the analysis returns the error dictionary exactly when no sample was
    ever recorded, whatever the window.  Otherwise the outcome depends on
    the cutoff alone.  When [now - window_seconds] is a datetime, the
    analysis summarises a non-empty window and returns a report, and when
    no stored sample is at or after the cutoff, the window is the latest
    sample alone.  When it is not, the analysis raises [OverflowError]. *)
Theorem analysis_error_iff_never_sampled (si : Q) (hs : nat) (gpu : bool)
    (ps : list SystemMetrics) (now window_seconds : Z) :
  (1 <= hs)%nat ->
  error_iff_never_sampled si hs gpu ps now window_seconds
  /\ (ps <> [] -> representable now window_seconds ->
      exists recent summary latest,
        recent_metrics_of (fold_left record_metrics ps (__init__ si hs gpu))
          (now - window_seconds * 1000000)%Z = Ok recent
        /\ recent <> []
        /\ get_bottleneck_analysis
             (fold_left record_metrics ps (__init__ si hs gpu))
             now window_seconds
           = summarize (fold_left record_metrics ps (__init__ si hs gpu))
               recent
        /\ summarize (fold_left record_metrics ps (__init__ si hs gpu)) recent
           = Ok (Report summary)
        /\ last_item ps = Ok latest
        /\ get_current_metrics
             (fold_left record_metrics ps (__init__ si hs gpu)) = Some latest
        /\ ((forall m,
               In m (elems (metrics_history
                              (fold_left record_metrics ps
                                 (__init__ si hs gpu)))) ->
               (timestamp m < now - window_seconds * 1000000)%Z) ->
            recent = [latest]))
  /\ (ps <> [] -> ~ representable now window_seconds ->
      get_bottleneck_analysis
        (fold_left record_metrics ps (__init__ si hs gpu)) now window_seconds
      = Raise OverflowError).
Proof.
  intros Hhs.
  set (self := fold_left record_metrics ps (__init__ si hs gpu)).
  set (cutoff := (now - window_seconds * 1000000)%Z).
  pose proof (fresh_history si hs gpu ps) as Hh. fold self in Hh.
  assert (Hstored :
    ps <> [] ->
    exists latest,
      last_item ps = Ok latest
      /\ last_item (elems (metrics_history self)) = Ok latest
      /\ truthy (elems (metrics_history self)) = true).
  { intros Hps.
    destruct (last_item_total ps Hps) as (latest & Hlatest).
    assert (Hlast : last_item (elems (metrics_history self)) = Ok latest).
    { rewrite Hh, last_item_keep_last by exact Hhs. exact Hlatest. }
    exists latest. split; [exact Hlatest|]. split; [exact Hlast|].
    destruct (elems (metrics_history self)); [discriminate Hlast|].
    reflexivity. }
  assert (Hnonempty :
    ps <> [] -> representable now window_seconds ->
    exists recent summary latest,
      recent_metrics_of self cutoff = Ok recent
      /\ recent <> []
      /\ get_bottleneck_analysis self now window_seconds
         = summarize self recent
      /\ summarize self recent = Ok (Report summary)
      /\ last_item ps = Ok latest
      /\ get_current_metrics self = Some latest
      /\ ((forall m, In m (elems (metrics_history self)) ->
                     (timestamp m < cutoff)%Z) ->
          recent = [latest])).
  { intros Hps Hrep.
    destruct (Hstored Hps) as (latest & Hlatest & Hlast & Htruthy).
    assert (Hcut : cutoff_of now window_seconds = Ok cutoff)
      by (apply cutoff_of_Ok; split; [reflexivity | exact Hrep]).
    assert (Hrecent : exists recent,
      recent_metrics_of self cutoff = Ok recent /\ recent <> []
      /\ ((forall m, In m (elems (metrics_history self)) ->
                     (timestamp m < cutoff)%Z) ->
          recent = [latest])).
    { unfold recent_metrics_of.
      destruct (filter _ (elems (metrics_history self))) as [|x l] eqn:Ef;
        cbn [truthy negb].
      - rewrite Hlast. cbn [bind]. exists [latest].
        split; [reflexivity|]. split; [discriminate|]. reflexivity.
      - exists (x :: l). split; [reflexivity|]. split; [discriminate|].
        intros Hold. rewrite filter_none in Ef; [discriminate Ef|].
        intros m Hm. specialize (Hold m Hm). lia. }
    destruct Hrecent as (recent & Hr & Hne & Hfallback).
    destruct (summarize_total self recent Hne) as (summary & Hs).
    exists recent, summary, latest.
    split; [exact Hr|]. split; [exact Hne|]. split.
    { unfold get_bottleneck_analysis. rewrite Htruthy. cbn [negb].
      rewrite Hcut. cbn [bind]. rewrite Hr. reflexivity. }
    split; [exact Hs|]. split; [exact Hlatest|]. split; [|exact Hfallback].
    unfold get_current_metrics. rewrite Htruthy, Hlast. reflexivity. }
  assert (Hraise :
    ps <> [] -> ~ representable now window_seconds ->
    get_bottleneck_analysis self now window_seconds = Raise OverflowError).
  { intros Hps Hrep.
    destruct (Hstored Hps) as (latest & _ & _ & Htruthy).
    assert (Hcut : cutoff_of now window_seconds = Raise OverflowError)
      by (apply cutoff_of_Raise; split; [reflexivity | exact Hrep]).
    unfold get_bottleneck_analysis. rewrite Htruthy. cbn [negb].
    rewrite Hcut. reflexivity. }
  split; [|split; [exact Hnonempty | exact Hraise]].
  unfold error_iff_never_sampled. fold self. split.
  - intros (msg & Hmsg). destruct ps as [|p ps']; [reflexivity|].
    destruct (representable_dec now window_seconds) as [Hrep|Hrep].
    + destruct Hnonempty as (recent & summary & latest & _ & _ & Hg & Hs & _);
        [discriminate | exact Hrep |].
      rewrite Hg, Hs in Hmsg. discriminate Hmsg.
    + rewrite Hraise in Hmsg; [discriminate Hmsg | discriminate | exact Hrep].
  - intros ->. eexists. reflexivity.
Qed.

Lemma analysis_error_iff_never_sampled_witness :
  error_iff_never_sampled 1.0 3 true four_samples 60000000 30
  /\ (four_samples <> [] -> representable 60000000 30 ->
      exists recent summary latest,
        recent_metrics_of
          (fold_left record_metrics four_samples (__init__ 1.0 3 true))
          (60000000 - 30 * 1000000)%Z = Ok recent
        /\ recent <> []
        /\ get_bottleneck_analysis
             (fold_left record_metrics four_samples (__init__ 1.0 3 true))
             60000000 30
           = summarize
               (fold_left record_metrics four_samples (__init__ 1.0 3 true))
               recent
        /\ summarize
             (fold_left record_metrics four_samples (__init__ 1.0 3 true))
             recent
           = Ok (Report summary)
        /\ last_item four_samples = Ok latest
        /\ get_current_metrics
             (fold_left record_metrics four_samples (__init__ 1.0 3 true))
           = Some latest
        /\ ((forall m,
               In m (elems (metrics_history
                              (fold_left record_metrics four_samples
                                 (__init__ 1.0 3 true)))) ->
               (timestamp m < 60000000 - 30 * 1000000)%Z) ->
            recent = [latest]))
  /\ (four_samples <> [] -> ~ representable 60000000 30 ->
      get_bottleneck_analysis
        (fold_left record_metrics four_samples (__init__ 1.0 3 true))
        60000000 30
      = Raise OverflowError).
Proof.
  apply (analysis_error_iff_never_sampled 1.0 3 true four_samples 60000000 30).
  lia.
Defined.

(** * Further properties of the monitor *)

(** ** Selection and the raw buckets *)

Lemma gt_div (a b t : Q) : 0 < t -> gt (a / t) (b / t) = gt a b.
Proof.
  intros Ht. destruct (gt a b) eqn:E.
  - apply gt_true. apply gt_true in E. apply div_lt_iff; assumption.
  - apply gt_false. apply gt_false in E.
    apply Qnot_lt_le. intros H. apply div_lt_iff in H; [lra | exact Ht].
Qed.

(** Dividing every score by the same positive total keeps their order:
    a fact of exact arithmetic.  Rounded quotients of two scores an ulp
    apart can coincide, so what follows uses it only on scores compared
    with the fixed levels of the classifier. *)
Lemma primary_scale (a b c d e t : Q) :
  0 < t ->
  primary (buckets (a / t) (b / t) (c / t) (d / t) (e / t))
  = primary (buckets a b c d e).
Proof.
  intros Ht. unfold primary, buckets, items, max_by.
  cbn [max_from bind snd].
  repeat (rewrite !(gt_div _ _ t Ht);
          match goal with
          | |- context [if gt ?x ?y then _ else _] =>
              is_var x; is_var y; destruct (gt x y) eqn:?
          end; cbn [snd fst]).
  all: reflexivity.
Qed.

Lemma primary_is_max (a b c d e : Q) (label : string) :
  primary (buckets a b c d e) = Ok label ->
  exists v,
    getitem (buckets a b c d e) label = Ok v
    /\ a <= v /\ b <= v /\ c <= v /\ d <= v /\ e <= v.
Proof.
  unfold primary. intros Hp.
  destruct (max_by _ _) as [[k v]|x] eqn:Hmax; cbn [bind fst] in Hp;
    [|discriminate Hp].
  injection Hp as ->.
  apply max_by_first_max in Hmax.
  pose proof (first_max_bound _ _ _ Hmax) as Hb.
  destruct Hmax as (pre & post & Heq & _).
  assert (Hin : In (label, v) (items (buckets a b c d e))).
  { rewrite Heq. apply in_or_app. right. left. reflexivity. }
  unfold items, buckets in Hin, Hb. cbn [In] in Hin.
  repeat match goal with
  | H : Forall _ (_ :: _) |- _ => inversion H; clear H; subst
  end.
  cbn [snd] in *.
  exists v.
  destruct Hin as [E | [E | [E | [E | [E | []]]]]]; injection E as <- <-;
    (split; [reflexivity | repeat split; assumption]).
Qed.

Lemma run_closed (self : PerformanceMonitor) (metrics : SystemMetrics)
    (c me g gm n mc : Q) (label : string) :
  initialised self ->
  max_core_usage_of metrics = Ok mc ->
  run self metrics c me g gm n label ->
  c = cpu_bucket mc metrics /\ me = memory_bucket metrics
  /\ g = gpu_bucket self metrics /\ gm = gpu_memory_bucket self metrics.
Proof.
  intros Hinit Hmc R.
  pose proof (run_raw _ _ _ _ _ _ _ _ R) as Hraw.
  rewrite (score_buckets_eq self metrics mc Hinit Hmc) in Hraw.
  unfold buckets in Hraw. injection Hraw as -> -> -> ->.
  repeat split; reflexivity.
Qed.

Lemma run_label_raw (self : PerformanceMonitor) (metrics : SystemMetrics)
    (c me g gm n : Q) (label : string) :
  run self metrics c me g gm n label ->
  primary (buckets c me g gm n) = Ok label.
Proof.
  intros R. rewrite <- (run_primary _ _ _ _ _ _ _ _ R).
  symmetry. apply primary_scale. exact (run_total _ _ _ _ _ _ _ _ R).
Qed.

Lemma resource_label_raw (self : PerformanceMonitor)
    (metrics : SystemMetrics) (c me g gm n : Q) (label : string) :
  run self metrics c me g gm n label ->
  label <> "None" ->
  n = 0.0
  /\ exists v,
       getitem (buckets c me g gm 0.0) label = Ok v
       /\ 0.3 <= v /\ c <= v /\ me <= v /\ g <= v /\ gm <= v.
Proof.
  intros R Hlabel.
  pose proof (run_label_raw _ _ _ _ _ _ _ _ R) as Hp.
  destruct R as [_ Hc Hme Hg Hgm _ _ Hn _ _ _ _].
  destruct (lt (raw_max c me g gm) 0.3) eqn:Hf.
  - exfalso. apply Hlabel. subst n.
    apply raw_max_below in Hf. destruct Hf as (? & ? & ? & ?).
    assert (Hnone : primary (buckets c me g gm 1.0) = Ok "None")
      by (apply primary_none_iff; repeat split; lra).
    rewrite Hnone in Hp. injection Hp as <-. reflexivity.
  - split; [exact Hn|]. subst n.
    destruct (primary_is_max _ _ _ _ _ _ Hp)
      as (v & Hv & Hcv & Hmev & Hgv & Hgmv & _).
    exists v. split; [exact Hv|].
    assert (Hmax : 0.3 <= v).
    { destruct (Qlt_le_dec v 0.3) as [Hlt|]; [|assumption].
      assert (Hall : lt (raw_max c me g gm) 0.3 = true)
        by (apply raw_max_below; repeat split; lra).
      congruence. }
    repeat split; assumption.
Qed.

Lemma cpu_bucket_signal (mc : Q) (metrics : SystemMetrics) :
  0.3 <= cpu_bucket mc metrics ->
  60 < mc \/ 85 < cpu_percent metrics \/ 100 < falcon_bms_cpu metrics.
Proof.
  unfold cpu_bucket. cbv zeta. split_gt; qprop; intros H;
    solve [left; lra | right; left; lra | right; right; lra
          | exfalso; qlit; lra].
Qed.

Lemma cpu_bucket_quiet (mc : Q) (metrics : SystemMetrics) :
  cpu_bucket mc metrics < 0.3 -> mc <= 60.
Proof.
  unfold cpu_bucket. cbv zeta. split_gt; qsolve.
Qed.

(** X3. The thresholds that decide a label in effect.  Memory is only
    returned at a memory usage of at least 89.5 percent, GPU_Memory only
    with an available GPU at a GPU memory usage of at least 89.5 percent,
    GPU only with an available GPU at a utilisation of at least 93
    percent, and CPU only when a core is above 60, the overall CPU usage
    above 85 or the target process above 100 percent. *)
Theorem effective_thresholds (self : PerformanceMonitor)
    (metrics : SystemMetrics) (label : string) (scores : dict Q) :
  initialised self ->
  _analyze_bottleneck self metrics = Ok (label, scores) ->
  (label = "Memory" -> 89.5 <= memory_percent metrics)
  /\ (label = "GPU" ->
      gpu_available self = true /\ 93 <= gpu_utilization metrics)
  /\ (label = "GPU_Memory" ->
      gpu_available self = true /\ 89.5 <= gpu_memory_percent metrics)
  /\ (label = "CPU" ->
      exists max_core,
        max_core_usage_of metrics = Ok max_core
        /\ (60 < max_core \/ 85 < cpu_percent metrics
            \/ 100 < falcon_bms_cpu metrics)).
Proof.
  intros Hinit Hres.
  destruct (classifier_run self metrics Hinit)
    as (c & me & g & gm & n & label' & R).
  pose proof (run_result _ _ _ _ _ _ _ _ R) as Hres'.
  rewrite Hres in Hres'. injection Hres' as -> _.
  destruct (max_core_usage_total metrics) as (mc & Hmc).
  destruct (run_closed _ _ _ _ _ _ _ mc _ Hinit Hmc R)
    as (Ec & Eme & Eg & Egm).
  pose proof (resource_label_raw _ _ _ _ _ _ _ _ R) as Hw.
  split; [|split; [|split]]; intros ->;
    (destruct Hw as (_ & v & Hv & H03 & _); [discriminate|]);
    cbn in Hv; injection Hv as <-.
  - subst me. unfold memory_bucket in H03. revert H03. split_gt; qsolve.
  - subst g. unfold gpu_bucket in H03. revert H03.
    destruct (gpu_available self); [|intros; exfalso; lra].
    split; [reflexivity|]. revert H03. split_gt; qsolve.
  - subst gm. unfold gpu_memory_bucket in H03. revert H03.
    destruct (gpu_available self); [|intros; exfalso; lra].
    split; [reflexivity|]. revert H03. split_gt; qsolve.
  - exists mc. split; [exact Hmc|]. subst c.
    apply cpu_bucket_signal. exact H03.
Qed.

Lemma effective_thresholds_witness :
  ("GPU" = "Memory" -> 89.5 <= memory_percent gpu_busy_snapshot)
  /\ ("GPU" = "GPU" ->
      gpu_available default_monitor = true
      /\ 93 <= gpu_utilization gpu_busy_snapshot)
  /\ ("GPU" = "GPU_Memory" ->
      gpu_available default_monitor = true
      /\ 89.5 <= gpu_memory_percent gpu_busy_snapshot)
  /\ ("GPU" = "CPU" ->
      exists max_core,
        max_core_usage_of gpu_busy_snapshot = Ok max_core
        /\ (60 < max_core \/ 85 < cpu_percent gpu_busy_snapshot
            \/ 100 < falcon_bms_cpu gpu_busy_snapshot)).
Proof.
  refine (effective_thresholds default_monitor gpu_busy_snapshot "GPU" _ _ _);
    [reflexivity | vm_compute; reflexivity].
Defined.

Lemma none_label_quiet_cores (self : PerformanceMonitor)
    (metrics : SystemMetrics) (scores : dict Q) :
  initialised self ->
  _analyze_bottleneck self metrics = Ok ("None", scores) ->
  exists mc, max_core_usage_of metrics = Ok mc /\ mc <= 60.
Proof.
  intros Hinit Hres.
  destruct (classifier_run self metrics Hinit)
    as (c & me & g & gm & n & label & R).
  pose proof (run_result _ _ _ _ _ _ _ _ R) as Hres'.
  rewrite Hres in Hres'. injection Hres' as <- _.
  destruct (max_core_usage_total metrics) as (mc & Hmc).
  destruct (run_closed _ _ _ _ _ _ _ mc _ Hinit Hmc R) as (Ec & _).
  pose proof (run_label_raw _ _ _ _ _ _ _ _ R) as Hp.
  apply primary_none_iff in Hp. destruct Hp as (Hcn & _).
  pose proof (run_fired _ _ _ _ _ _ _ _ R) as Hn.
  exists mc. split; [exact Hmc|].
  apply (cpu_bucket_quiet mc metrics). rewrite <- Ec.
  destruct (lt (raw_max c me g gm) 0.3) eqn:Hf; subst n.
  - apply raw_max_below in Hf. tauto.
  - pose proof (run_cpu _ _ _ _ _ _ _ _ R). lra.
Qed.

(** X4. The note on the highest core never appears for a snapshot of the
    collector: when its label is None, no core is above 60 percent, and
    the recommendations are the single line on a balanced system. *)
Theorem balanced_snapshot_gets_one_line (self : PerformanceMonitor)
    (r : Readings) (snapshot : SystemMetrics) :
  initialised self ->
  _collect_metrics self r = Ok snapshot ->
  bottleneck snapshot = "None" ->
  (exists max_core,
     max_core_usage_of snapshot = Ok max_core /\ max_core <= 60)
  /\ _get_recommendations self snapshot
     = Ok ["System performance appears balanced. No immediate bottlenecks detected."].
Proof.
  intros Hinit Hcollect Hlabel.
  assert (Hq : exists mc, max_core_usage_of snapshot = Ok mc /\ mc <= 60).
  { unfold _collect_metrics in Hcollect.
    destruct (_get_gpu_metrics _ _) as [[[util mem] used] temp].
    destruct (match r_falcon r with
              | Some (cpu, Some rss) => _
              | Some (cpu, None) => _
              | None => _
              end) as [falcon_cpu falcon_mb].
    match type of Hcollect with
    | context [_analyze_bottleneck self ?m] =>
        destruct (_analyze_bottleneck self m) as [[label scores]|e] eqn:Ha
    end; cbn [bind fst snd] in Hcollect; [|discriminate Hcollect].
    injection Hcollect as <-. cbn [set_classification bottleneck] in Hlabel.
    subst label.
    destruct (none_label_quiet_cores _ _ _ Hinit Ha) as (mc & Hmc & Hle).
    exists mc. split; [exact Hmc | exact Hle]. }
  split; [exact Hq|].
  destruct Hq as (mc & Hmc & Hle).
  unfold _get_recommendations. rewrite Hmc, Hlabel. cbn [bind].
  assert (E : gt mc 60 = false) by (apply gt_false; exact Hle).
  rewrite E. reflexivity.
Qed.

Lemma balanced_snapshot_gets_one_line_witness :
  exists snapshot,
    _collect_metrics default_monitor idle_readings = Ok snapshot
    /\ (exists max_core,
          max_core_usage_of snapshot = Ok max_core /\ max_core <= 60)
    /\ _get_recommendations default_monitor snapshot
       = Ok ["System performance appears balanced. No immediate bottlenecks detected."].
Proof.
  eexists. split; [vm_compute; reflexivity|].
  refine (balanced_snapshot_gets_one_line default_monitor idle_readings _
            _ _ _);
    [reflexivity | vm_compute; reflexivity | reflexivity].
Defined.

(** X5. The generator never returns an empty list: it returns four lines
    for each of the labels CPU, Memory, GPU and GPU_Memory, and one or two
    lines for any other label. *)
Theorem recommendations_count (self : PerformanceMonitor)
    (metrics : SystemMetrics) :
  exists recs,
    _get_recommendations self metrics = Ok recs
    /\ (In (bottleneck metrics) ["CPU"; "Memory"; "GPU"; "GPU_Memory"] ->
        List.length recs = 4%nat)
    /\ (~ In (bottleneck metrics) ["CPU"; "Memory"; "GPU"; "GPU_Memory"] ->
        List.length recs = 1%nat \/ List.length recs = 2%nat).
Proof.
  unfold _get_recommendations.
  destruct (max_core_usage_total metrics) as (mc & ->). cbn [bind].
  repeat match goal with
  | |- context [if String.eqb ?a ?b then _ else _] =>
      destruct (String.eqb_spec a b)
  end; split_gt; eexists; (split; [reflexivity|]); cbn [List.length app In];
    split; intros H; try reflexivity; try (left; reflexivity);
    try (right; reflexivity); exfalso;
    solve [ apply H; tauto
          | intuition congruence ].
Qed.

(** ** The collector and the sampling loop *)

Lemma collect_eq (self : PerformanceMonitor) (r : Readings) :
  _collect_metrics self r
  = (res <- _analyze_bottleneck self (reading_metrics self r) ;;
     Ok (set_classification (reading_metrics self r) (fst res) (snd res))).
Proof.
  unfold _collect_metrics, reading_metrics.
  destruct (_get_gpu_metrics _ _) as [[[util mem] used] temp].
  destruct (r_falcon r) as [[cpu [rss|]]|]; reflexivity.
Qed.

Lemma classifier_distribution (self : PerformanceMonitor)
    (metrics : SystemMetrics) :
  initialised self ->
  exists label scores,
    _analyze_bottleneck self metrics = Ok (label, scores)
    /\ classified (set_classification metrics label scores).
Proof.
  intros Hinit.
  destruct (classifier_first_max self metrics Hinit)
    as (label & score & scores & Hres & Hkeys & Hmax).
  destruct (classifier_run self metrics Hinit)
    as (c & me & g & gm & n & label' & R).
  destruct R as [_ Hc Hme Hg Hgm _ _ Hn Ht _ _ Hres'].
  rewrite Hres in Hres'. injection Hres' as -> ->.
  pose proof (total_eq c me g gm n) as Hsum.
  assert (Hn0 : 0 <= n) by (rewrite Hn; destruct (lt _ _); lra).
  set (T := total c me g gm n) in *.
  exists label'. eexists. split; [exact Hres|].
  unfold classified.
  cbn [set_classification bottleneck bottleneck_score].
  split; [reflexivity|]. split; [|split].
  - cbn [values map snd buckets].
    repeat constructor; apply div_bounds; solve [assumption | lra].
  - unfold Py.sum, values, buckets. cbn [map snd fold_left].
    transitivity ((c + me + g + gm + n) / T); [field; lra|].
    rewrite <- Hsum. field. lra.
  - exists score. exact Hmax.
Qed.

Lemma collect_classified (self : PerformanceMonitor) (r : Readings) :
  initialised self ->
  exists snapshot,
    _collect_metrics self r = Ok snapshot
    /\ classified snapshot
    /\ timestamp snapshot = r_now r
    /\ cpu_percent snapshot = r_cpu_percent r
    /\ cpu_per_core snapshot = r_cpu_per_core r
    /\ memory_percent snapshot = r_memory_percent r.
Proof.
  intros Hinit. rewrite collect_eq.
  destruct (classifier_distribution self (reading_metrics self r) Hinit)
    as (label & scores & -> & Hc).
  cbn [bind fst snd]. eexists. split; [reflexivity|]. split; [exact Hc|].
  unfold reading_metrics.
  destruct (_get_gpu_metrics _ _) as [[[util mem] used] temp].
  destruct (r_falcon r) as [[cpu [rss|]]|]; repeat split; reflexivity.
Qed.

Lemma collect_reads_no_history (self : PerformanceMonitor)
    (m : SystemMetrics) (r : Readings) :
  _collect_metrics (record_metrics self m) r = _collect_metrics self r.
Proof. reflexivity. Qed.


Lemma collected_record (self : PerformanceMonitor) (m : SystemMetrics)
    (rs : list Readings) :
  collected (record_metrics self m) rs = collected self rs.
Proof. reflexivity. Qed.

Lemma monitor_loop_appends (rs : list Readings) :
  forall self,
    _monitor_loop self rs
    = if running self then fold_left record_metrics (collected self rs) self
      else self.
Proof.
  induction rs as [|r rs IH]; intros self; cbn [_monitor_loop].
  - destruct (running self); reflexivity.
  - destruct (running self) eqn:Erun; [|reflexivity].
    rewrite IH. unfold monitor_iteration.
    change (collected self (r :: rs))
      with ((match _collect_metrics self r with
             | Ok m => [m]
             | Raise _ => []
             end) ++ collected self rs)%list.
    destruct (_collect_metrics self r) as [m|e]; cbn [app fold_left].
    + change (running (record_metrics self m)) with (running self).
      rewrite Erun, collected_record. reflexivity.
    + rewrite Erun. reflexivity.
Qed.

Lemma collected_spec (self : PerformanceMonitor) (rs : list Readings) :
  Forall (fun m => exists r, In r rs /\ _collect_metrics self r = Ok m)
    (collected self rs).
Proof.
  unfold collected. apply Forall_forall. intros m Hm.
  apply in_flat_map in Hm. destruct Hm as (r & Hr & Hin).
  exists r. split; [exact Hr|].
  destruct (_collect_metrics self r) as [m'|e]; [|contradiction].
  destruct Hin as [<-|[]]. reflexivity.
Qed.

Lemma keep_last_Forall {A : Type} (P : A -> Prop) (n : nat) (l : list A) :
  Forall P l -> Forall P (keep_last n l).
Proof.
  intros H. unfold keep_last.
  rewrite <- (firstn_skipn (List.length l - n) l) in H.
  apply Forall_app in H. tauto.
Qed.



Example loop_on_two_readings :
  map timestamp
    (elems (metrics_history
              (_monitor_loop (start_monitoring small_monitor)
                 [idle_readings; busy_readings])))
  = map r_now [idle_readings; busy_readings]
  /\ _monitor_loop (stop_monitoring (start_monitoring small_monitor))
       [idle_readings; busy_readings]
     = stop_monitoring (start_monitoring small_monitor).
Proof. split; reflexivity. Qed.

(** X7. The sampling loop keeps the history classified: when every
    stored snapshot carries the label and normalised scores of a
    classification, so does every snapshot stored after any number of
    passes. *)
Theorem monitor_loop_keeps_history_classified (self : PerformanceMonitor)
    (rs : list Readings) :
  initialised self ->
  history_wf self ->
  Forall classified (elems (metrics_history self)) ->
  Forall classified (elems (metrics_history (_monitor_loop self rs))).
Proof.
  intros Hinit Hwf Hold.
  rewrite monitor_loop_appends.
  destruct (running self); [|exact Hold].
  rewrite history_after_samples.
  destruct (appends_elems (collected self rs) (metrics_history self) Hwf)
    as [_ He].
  rewrite He. apply keep_last_Forall. apply Forall_app. split; [exact Hold|].
  pose proof (collected_spec self rs) as Hall.
  rewrite Forall_forall in *. intros m Hm.
  destruct (Hall m Hm) as (r & _ & Hr).
  destruct (collect_classified self r Hinit) as (m' & Hm' & Hc & _).
  rewrite Hr in Hm'. injection Hm' as <-. exact Hc.
Qed.

Lemma monitor_loop_keeps_history_classified_witness :
  Forall classified
    (elems (metrics_history
              (_monitor_loop (start_monitoring small_monitor)
                 [idle_readings; busy_readings]))).
Proof.
  apply (monitor_loop_keeps_history_classified
           (start_monitoring small_monitor)
           [idle_readings; busy_readings]).
  - reflexivity.
  - unfold history_wf. cbn. lia.
  - constructor.
Defined.

(** X8. A recorded snapshot is the current one: on a history of capacity
    at least 1, [get_current_metrics] returns the snapshot that was
    appended last. *)
Theorem current_metrics_after_record (self : PerformanceMonitor)
    (metrics : SystemMetrics) :
  (1 <= maxlen (metrics_history self))%nat ->
  get_current_metrics (record_metrics self metrics) = Some metrics.
Proof.
  intros Hcap. unfold get_current_metrics.
  cbn [record_metrics metrics_history deque_append elems].
  set (grown := (elems (metrics_history self) ++ [metrics])%list).
  assert (Hlast : forall l, l <> [] -> last_item (l ++ [metrics])%list
                                       = Ok metrics).
  { intros l _. unfold last_item. rewrite rev_unit. reflexivity. }
  destruct (elems (metrics_history self)) as [|x l] eqn:E.
  - subst grown. cbn [app List.length].
    destruct (Nat.ltb_spec (maxlen (metrics_history self)) 1); [lia|].
    reflexivity.
  - subst grown. cbn [app List.length tl].
    destruct (_ <? _)%nat.
    + destruct l as [|y l']; [reflexivity|].
      rewrite (Hlast (y :: l')) by discriminate. reflexivity.
    + change (x :: (l ++ [metrics])%list) with ((x :: l) ++ [metrics])%list.
      rewrite (Hlast (x :: l)) by discriminate. reflexivity.
Qed.

Lemma current_metrics_after_record_witness :
  get_current_metrics (record_metrics small_monitor idle_snapshot)
  = Some idle_snapshot.
Proof.
  apply (current_metrics_after_record small_monitor idle_snapshot).
  cbn. lia.
Defined.

(** ** The windowed analysis on an arbitrary history *)

Lemma recent_window (self : PerformanceMonitor) (cutoff : Z) :
  elems (metrics_history self) <> [] ->
  exists recent latest,
    recent_metrics_of self cutoff = Ok recent
    /\ last_item (elems (metrics_history self)) = Ok latest
    /\ recent <> []
    /\ (recent = filter (fun m => (timestamp m >=? cutoff)%Z)
                   (elems (metrics_history self))
        \/ recent = [latest]
           /\ filter (fun m => (timestamp m >=? cutoff)%Z)
                (elems (metrics_history self)) = []).
Proof.
  intros Hne. destruct (last_item_total _ Hne) as (latest & Hlatest).
  unfold recent_metrics_of.
  destruct (filter _ (elems (metrics_history self))) as [|x l] eqn:Ef;
    cbn [truthy negb].
  - rewrite Hlatest. cbn [bind]. exists [latest], latest.
    split; [reflexivity|]. split; [reflexivity|].
    split; [discriminate|]. right. split; reflexivity.
  - exists (x :: l), latest. split; [reflexivity|]. split; [exact Hlatest|].
    split; [discriminate|]. left. reflexivity.
Qed.

Lemma truthy_nonempty {A : Type} (l : list A) : truthy l = true <-> l <> [].
Proof. destruct l; cbn; split; congruence. Qed.

Lemma analysis_unfold (self : PerformanceMonitor) (now window_seconds : Z) :
  elems (metrics_history self) <> [] ->
  get_bottleneck_analysis self now window_seconds
  = (cutoff_time <- cutoff_of now window_seconds ;;
     recent <- recent_metrics_of self cutoff_time ;;
     summarize self recent).
Proof.
  intros Hne. unfold get_bottleneck_analysis.
  apply truthy_nonempty in Hne. rewrite Hne. reflexivity.
Qed.

Lemma analysis_reports (self : PerformanceMonitor) (now window_seconds : Z) :
  elems (metrics_history self) <> [] ->
  representable now window_seconds ->
  exists summary,
    get_bottleneck_analysis self now window_seconds = Ok (Report summary).
Proof.
  intros Hne Hrep. rewrite (analysis_unfold self now window_seconds Hne).
  assert (Hcut : cutoff_of now window_seconds
                 = Ok (now - window_seconds * 1000000)%Z)
    by (apply cutoff_of_Ok; split; [reflexivity | exact Hrep]).
  rewrite Hcut. cbn [bind].
  destruct (recent_window self (now - window_seconds * 1000000)%Z Hne)
    as (recent & latest & -> & _ & Hrecent & _).
  cbn [bind]. apply summarize_total. exact Hrecent.
Qed.

Lemma analysis_overflows (self : PerformanceMonitor)
    (now window_seconds : Z) :
  elems (metrics_history self) <> [] ->
  ~ representable now window_seconds ->
  get_bottleneck_analysis self now window_seconds = Raise OverflowError.
Proof.
  intros Hne Hrep. rewrite (analysis_unfold self now window_seconds Hne).
  assert (Hcut : cutoff_of now window_seconds = Raise OverflowError)
    by (apply cutoff_of_Raise; split; [reflexivity | exact Hrep]).
  rewrite Hcut. reflexivity.
Qed.


Lemma summarize_inv (self : PerformanceMonitor)
    (recent : list SystemMetrics) (s : Summary) :
  summarize self recent = Ok (Report s) ->
  exists current,
    last_item recent = Ok current
    /\ current_bottleneck s = bottleneck current
    /\ _get_recommendations self current = Ok (recommendations s)
    /\ current_metrics s
       = [("cpu_percent", cpu_percent current);
          ("memory_percent", memory_percent current);
          ("gpu_utilization", gpu_utilization current);
          ("gpu_memory_percent", gpu_memory_percent current);
          ("falcon_bms_cpu", falcon_bms_cpu current);
          ("falcon_bms_memory_mb", falcon_bms_memory_mb current)]
    /\ bottleneck_frequency s
       = fst (fold_left aggregate_one recent ([], []))
    /\ averages (items (snd (fold_left aggregate_one recent ([], [])))) []
       = Ok (bottleneck_confidence s).
Proof.
  unfold summarize.
  destruct (fold_left aggregate_one recent ([], [])) as [counts avg].
  destruct (averages (items avg) []) as [final|e] eqn:Hfinal; cbn [bind];
    [|discriminate].
  destruct (last_item recent) as [current|e]; cbn [bind]; [|discriminate].
  destruct (_get_recommendations self current) as [recs|e] eqn:Hrecs;
    cbn [bind]; [|discriminate].
  intros [= <-]. exists current.
  cbn [current_bottleneck recommendations current_metrics
       bottleneck_frequency bottleneck_confidence fst snd].
  repeat split; solve [reflexivity | exact Hrecs | exact Hfinal].
Qed.

Lemma analysis_inv (self : PerformanceMonitor) (now window_seconds : Z)
    (s : Summary) :
  get_bottleneck_analysis self now window_seconds = Ok (Report s) ->
  elems (metrics_history self) <> []
  /\ exists recent,
       recent_metrics_of self (now - window_seconds * 1000000)%Z = Ok recent
       /\ summarize self recent = Ok (Report s).
Proof.
  intros H.
  assert (Hne : elems (metrics_history self) <> []).
  { intros E. unfold get_bottleneck_analysis in H. rewrite E in H.
    discriminate H. }
  split; [exact Hne|].
  rewrite (analysis_unfold self now window_seconds Hne) in H.
  destruct (cutoff_of now window_seconds) as [cutoff|e] eqn:Ec;
    cbn [bind] in H; [|discriminate H].
  apply cutoff_of_Ok in Ec. destruct Ec as [-> _].
  destruct (recent_metrics_of self _) as [recent|e]; cbn [bind] in H;
    [|discriminate H].
  exists recent. split; [reflexivity | exact H].
Qed.

Lemma last_item_app {A : Type} (l : list A) (x : A) :
  last_item (l ++ [x])%list = Ok x.
Proof. unfold last_item. rewrite rev_unit. reflexivity. Qed.

Lemma last_item_inv {A : Type} (l : list A) (x : A) :
  last_item l = Ok x -> exists l', l = (l' ++ [x])%list.
Proof.
  destruct l as [|y l'] using rev_ind; [discriminate|].
  rewrite last_item_app. intros [= ->]. exists l'. reflexivity.
Qed.

(** X10. On a history whose latest snapshot has the greatest timestamp,
    the report is about that snapshot: its current bottleneck, its six
    raw metrics, under their keys and in their order, and its
    recommendations are those of the snapshot that [get_current_metrics]
    returns, for every window length that yields a report. *)
Theorem report_is_about_latest (self : PerformanceMonitor)
    (now window_seconds : Z) (latest : SystemMetrics) (s : Summary) :
  get_current_metrics self = Some latest ->
  (forall m, In m (elems (metrics_history self)) ->
             (timestamp m <= timestamp latest)%Z) ->
  get_bottleneck_analysis self now window_seconds = Ok (Report s) ->
  current_bottleneck s = bottleneck latest
  /\ current_metrics s
     = [("cpu_percent", cpu_percent latest);
        ("memory_percent", memory_percent latest);
        ("gpu_utilization", gpu_utilization latest);
        ("gpu_memory_percent", gpu_memory_percent latest);
        ("falcon_bms_cpu", falcon_bms_cpu latest);
        ("falcon_bms_memory_mb", falcon_bms_memory_mb latest)]
  /\ _get_recommendations self latest = Ok (recommendations s).
Proof.
  intros Hcur Hmax Hres.
  destruct (analysis_inv _ _ _ _ Hres) as (Hne & recent & Hrecent & Hsum).
  assert (Hlatest : last_item (elems (metrics_history self)) = Ok latest).
  { unfold get_current_metrics in Hcur.
    destruct (truthy _); [|discriminate Hcur].
    destruct (last_item _) as [m|e]; [|discriminate Hcur].
    injection Hcur as ->. reflexivity. }
  destruct (summarize_inv _ _ _ Hsum)
    as (current & Hlast & Hb & Hrecs & Hcm & _).
  assert (Ecur : current = latest).
  { destruct (recent_window self (now - window_seconds * 1000000)%Z Hne)
      as (recent' & latest' & Hr' & Hl' & Hne' & Hcase).
    rewrite Hrecent in Hr'. injection Hr' as <-.
    rewrite Hlatest in Hl'. injection Hl' as <-.
    destruct Hcase as [Hf | [Hf _]].
    - destruct (last_item_inv _ _ Hlatest) as (l' & Hl).
      rewrite Hl, filter_app in Hf. cbn [filter] in Hf.
      assert (Hpass : (timestamp latest >=? now - window_seconds * 1000000)%Z
                      = true).
      { destruct recent as [|x rest]; [contradiction|].
        assert (Hx : In x (filter
                             (fun m => (timestamp m
                                        >=? now - window_seconds * 1000000)%Z)
                             (elems (metrics_history self)))).
        { rewrite Hl, filter_app. cbn [filter]. rewrite <- Hf. left.
          reflexivity. }
        apply filter_In in Hx. destruct Hx as [Hin Hge].
        specialize (Hmax x Hin). lia. }
      rewrite Hpass in Hf. rewrite Hf, last_item_app in Hlast.
      injection Hlast as <-. reflexivity.
    - rewrite Hf in Hlast. cbn in Hlast. injection Hlast as <-.
      reflexivity. }
  subst current.
  split; [exact Hb|]. split; [exact Hcm | exact Hrecs].
Qed.

Lemma report_is_about_latest_witness :
  exists s,
    get_bottleneck_analysis
      (fold_left record_metrics four_samples small_monitor) 4500000 2
    = Ok (Report s)
    /\ current_bottleneck s = bottleneck (sample_at 4000000)
    /\ current_metrics s
       = [("cpu_percent", cpu_percent (sample_at 4000000));
          ("memory_percent", memory_percent (sample_at 4000000));
          ("gpu_utilization", gpu_utilization (sample_at 4000000));
          ("gpu_memory_percent", gpu_memory_percent (sample_at 4000000));
          ("falcon_bms_cpu", falcon_bms_cpu (sample_at 4000000));
          ("falcon_bms_memory_mb", falcon_bms_memory_mb (sample_at 4000000))]
    /\ _get_recommendations
         (fold_left record_metrics four_samples small_monitor)
         (sample_at 4000000)
       = Ok (recommendations s).
Proof.
  eexists. split; [vm_compute; reflexivity|].
  refine (report_is_about_latest
            (fold_left record_metrics four_samples small_monitor)
            4500000 2 (sample_at 4000000) _ _ _ _).
  - reflexivity.
  - cbn. intros m [<- | [<- | [<- | []]]]; cbn; lia.
  - vm_compute. reflexivity.
Defined.

(** ** Dictionaries: lookup after assignment *)

Lemma get_setitem {V : Type} (d : dict V) (k k' : string) (v : V) :
  get (setitem d k v) k' = if String.eqb k' k then Some v else get d k'.
Proof.
  induction d as [|[k0 v0] d IH]; cbn [setitem get].
  - destruct (String.eqb k' k); reflexivity.
  - destruct (String.eqb_spec k k0) as [-> | Hk]; cbn [get].
    + destruct (String.eqb k' k0); reflexivity.
    + rewrite IH. destruct (String.eqb_spec k' k0) as [-> | Hk'].
      * destruct (String.eqb_spec k0 k); [congruence | reflexivity].
      * reflexivity.
Qed.

Lemma keys_setitem_present {V : Type} (d : dict V) (k : string) (v w : V) :
  get d k = Some w -> keys (setitem d k v) = keys d.
Proof.
  induction d as [|[k0 v0] d IH]; cbn [setitem get keys map fst];
    [discriminate|].
  destruct (String.eqb k k0); [reflexivity|].
  intros H. cbn [map fst]. f_equal. apply IH. exact H.
Qed.

Lemma keys_setitem_absent {V : Type} (d : dict V) (k : string) (v : V) :
  get d k = None -> keys (setitem d k v) = (keys d ++ [k])%list.
Proof.
  induction d as [|[k0 v0] d IH]; cbn [setitem get keys map fst app];
    [reflexivity|].
  destruct (String.eqb k k0); [discriminate|].
  intros H. cbn [map fst]. f_equal. apply IH. exact H.
Qed.

Lemma get_in_keys {V : Type} (d : dict V) (k : string) :
  In k (keys d) <-> get d k <> None.
Proof.
  induction d as [|[k0 v0] d IH]; cbn [keys map fst In get].
  - split; [intros [] | congruence].
  - destruct (String.eqb_spec k k0) as [-> | Hk].
    + split; [discriminate | intros _; left; reflexivity].
    + rewrite <- IH. split; [intros [E | H]; [congruence | exact H]|].
      intros H. right. exact H.
Qed.

(** ** The frequency histogram *)

Lemma aggregate_split (recent : list SystemMetrics) :
  forall counts avg,
    fold_left aggregate_one recent (counts, avg)
    = (fold_left count_step recent counts, fold_left gather_step recent avg).
Proof.
  induction recent as [|m recent IH]; intros counts avg; cbn [fold_left];
    [reflexivity|].
  apply IH.
Qed.

Lemma counts_spec (recent : list SystemMetrics) (b : string) :
  forall counts,
    getdefault 0%Z (fold_left count_step recent counts) b
    = (getdefault 0%Z counts b + Z.of_nat (occurrences b recent))%Z.
Proof.
  unfold occurrences.
  induction recent as [|m recent IH]; intros counts;
    cbn [fold_left map count_occ]; [lia|].
  rewrite IH. unfold count_step. unfold getdefault at 1.
  rewrite get_setitem.
  destruct (string_dec (bottleneck m) b) as [E | E].
  - subst b. rewrite String.eqb_refl. lia.
  - destruct (String.eqb_spec b (bottleneck m)); [congruence|].
    fold (getdefault 0%Z counts b). lia.
Qed.

Lemma counts_keys (recent : list SystemMetrics) :
  forall counts,
    NoDup (keys counts) ->
    NoDup (keys (fold_left count_step recent counts))
    /\ forall b, In b (keys (fold_left count_step recent counts))
                 <-> In b (keys counts) \/ In b (map bottleneck recent).
Proof.
  induction recent as [|m recent IH]; intros counts Hnd; cbn [fold_left map].
  - split; [exact Hnd|]. intros b. cbn [In]. tauto.
  - assert (Hstep : NoDup (keys (count_step counts m))
                    /\ forall b, In b (keys (count_step counts m))
                                 <-> In b (keys counts) \/ b = bottleneck m).
    { unfold count_step.
      destruct (get counts (bottleneck m)) as [w|] eqn:G.
      - rewrite (keys_setitem_present _ _ _ w G). split; [exact Hnd|].
        intros b. split; [tauto|]. intros [H | ->]; [exact H|].
        apply get_in_keys. congruence.
      - rewrite (keys_setitem_absent _ _ _ G). split.
        + apply NoDup_app; [exact Hnd | repeat constructor; intros [] |].
          intros x Hx [<- | []]. apply get_in_keys in Hx. contradiction.
        + intros b. rewrite in_app_iff. cbn [In]. intuition congruence. }
    destruct Hstep as [Hnd' Hkeys'].
    destruct (IH (count_step counts m) Hnd') as [Hnd'' Hkeys''].
    split; [exact Hnd''|].
    intros b. rewrite Hkeys'', Hkeys'. cbn [In]. intuition congruence.
Qed.

(** X11. The frequency histogram of a report counts the window: each
    label is mapped to the number of snapshots of the window that carry
    it, a label is a key exactly when some snapshot of the window carries
    it, and no key occurs twice. *)
Theorem frequency_counts_window (self : PerformanceMonitor)
    (now window_seconds : Z) (s : Summary) :
  get_bottleneck_analysis self now window_seconds = Ok (Report s) ->
  exists recent,
    recent_metrics_of self (now - window_seconds * 1000000)%Z = Ok recent
    /\ (forall b,
          getdefault 0%Z (bottleneck_frequency s) b
          = Z.of_nat (occurrences b recent))
    /\ (forall b,
          In b (keys (bottleneck_frequency s))
          <-> In b (map bottleneck recent))
    /\ NoDup (keys (bottleneck_frequency s)).
Proof.
  intros Hres.
  destruct (analysis_inv _ _ _ _ Hres) as (_ & recent & Hrecent & Hsum).
  destruct (summarize_inv _ _ _ Hsum) as (_ & _ & _ & _ & _ & Hfreq & _).
  rewrite aggregate_split in Hfreq. cbn [fst] in Hfreq.
  exists recent. split; [exact Hrecent|]. rewrite Hfreq.
  destruct (counts_keys recent [] (NoDup_nil _)) as [Hnd Hkeys].
  split; [|split; [|exact Hnd]].
  - intros b. rewrite counts_spec. reflexivity.
  - intros b. rewrite Hkeys. cbn [keys map In]. tauto.
Qed.

Lemma frequency_counts_window_witness :
  exists s recent,
    get_bottleneck_analysis
      (fold_left record_metrics stale_samples small_monitor) 60500000 60
    = Ok (Report s)
    /\ recent_metrics_of
         (fold_left record_metrics stale_samples small_monitor)
         (60500000 - 60 * 1000000)%Z = Ok recent
    /\ (forall b,
          getdefault 0%Z (bottleneck_frequency s) b
          = Z.of_nat (occurrences b recent))
    /\ (forall b,
          In b (keys (bottleneck_frequency s))
          <-> In b (map bottleneck recent))
    /\ NoDup (keys (bottleneck_frequency s)).
Proof.
  eexists.
  assert (H : get_bottleneck_analysis
                (fold_left record_metrics stale_samples small_monitor)
                60500000 60 = Ok (Report _))
    by (vm_compute; reflexivity).
  destruct (frequency_counts_window _ _ _ _ H) as (recent & Hr).
  exists recent. split; [exact H | exact Hr].
Defined.

(** ** The averaged confidences *)

Lemma five_scores_shape (m : SystemMetrics) :
  five_scores m ->
  exists a b c d e, bottleneck_score m = buckets a b c d e.
Proof.
  unfold five_scores, keys, labels.
  destruct (bottleneck_score m) as [|[k1 a] [|[k2 b] [|[k3 c] [|[k4 d]
    [|[k5 e] [|x l]]]]]]; cbn [map fst]; try discriminate.
  intros [= -> -> -> -> ->]. exists a, b, c, d, e. reflexivity.
Qed.

Lemma gather_all (recent : list SystemMetrics) :
  Forall five_scores recent ->
  forall l1 l2 l3 l4 l5,
    fold_left gather_step recent (gathered l1 l2 l3 l4 l5)
    = gathered (l1 ++ map (score_of "CPU") recent)
               (l2 ++ map (score_of "Memory") recent)
               (l3 ++ map (score_of "GPU") recent)
               (l4 ++ map (score_of "GPU_Memory") recent)
               (l5 ++ map (score_of "None") recent).
Proof.
  induction 1 as [|m recent Hm _ IH]; intros l1 l2 l3 l4 l5;
    cbn [fold_left map].
  - rewrite !app_nil_r. reflexivity.
  - destruct (five_scores_shape m Hm) as (a & b & c & d & e & E).
    assert (Hstep : gather_step (gathered l1 l2 l3 l4 l5) m
                    = gathered (l1 ++ [a]) (l2 ++ [b]) (l3 ++ [c])
                               (l4 ++ [d]) (l5 ++ [e])).
    { unfold gather_step. rewrite E. reflexivity. }
    rewrite Hstep, IH. unfold score_of. rewrite E.
    rewrite <- !app_assoc. reflexivity.
Qed.

Lemma gather_window (recent : list SystemMetrics) :
  recent <> [] ->
  Forall five_scores recent ->
  fold_left gather_step recent []
  = gathered (map (score_of "CPU") recent) (map (score_of "Memory") recent)
             (map (score_of "GPU") recent)
             (map (score_of "GPU_Memory") recent)
             (map (score_of "None") recent).
Proof.
  intros Hne Hall. destruct recent as [|m recent]; [contradiction|].
  inversion Hall as [|? ? Hm Hrest]; subst.
  destruct (five_scores_shape m Hm) as (a & b & c & d & e & E).
  cbn [fold_left map].
  assert (Hstep : gather_step [] m = gathered [a] [b] [c] [d] [e]).
  { unfold gather_step. rewrite E. reflexivity. }
  rewrite Hstep, (gather_all recent Hrest). unfold score_of. rewrite E.
  reflexivity.
Qed.

Lemma averages_gathered (l1 l2 l3 l4 l5 : list Q) :
  l1 <> [] -> l2 <> [] -> l3 <> [] -> l4 <> [] -> l5 <> [] ->
  averages (items (gathered l1 l2 l3 l4 l5)) []
  = Ok (buckets (mean l1) (mean l2) (mean l3) (mean l4) (mean l5)).
Proof.
  intros H1 H2 H3 H4 H5.
  assert (Hnz : forall l : list Q,
             l <> [] -> ~ inject_Z (Z.of_nat (List.length l)) == 0).
  { intros [|x l] Hl; [contradiction|].
    cbn [List.length]. unfold Qeq. cbn. lia. }
  unfold items, gathered. cbn [averages].
  rewrite !truediv_ok by (apply Hnz; assumption).
  reflexivity.
Qed.

Lemma recent_subset (self : PerformanceMonitor) (cutoff : Z)
    (recent : list SystemMetrics) :
  recent_metrics_of self cutoff = Ok recent ->
  recent <> []
  /\ forall m, In m recent -> In m (elems (metrics_history self)).
Proof.
  unfold recent_metrics_of.
  destruct (filter _ (elems (metrics_history self))) as [|x l] eqn:Ef;
    cbn [truthy negb].
  - destruct (last_item _) as [latest|e] eqn:El; cbn [bind]; [|discriminate].
    intros [= <-]. split; [discriminate|].
    intros m [<- | []]. destruct (last_item_inv _ _ El) as (l' & ->).
    apply in_or_app. right. left. reflexivity.
  - intros [= <-]. split; [discriminate|].
    intros m Hm. rewrite <- Ef in Hm. apply filter_In in Hm. tauto.
Qed.

Lemma confidence_of_window (self : PerformanceMonitor)
    (now window_seconds : Z) (s : Summary) :
  get_bottleneck_analysis self now window_seconds = Ok (Report s) ->
  Forall five_scores (elems (metrics_history self)) ->
  exists recent,
    recent_metrics_of self (now - window_seconds * 1000000)%Z = Ok recent
    /\ recent <> []
    /\ (forall m, In m recent -> In m (elems (metrics_history self)))
    /\ bottleneck_confidence s
       = buckets (mean (map (score_of "CPU") recent))
                 (mean (map (score_of "Memory") recent))
                 (mean (map (score_of "GPU") recent))
                 (mean (map (score_of "GPU_Memory") recent))
                 (mean (map (score_of "None") recent)).
Proof.
  intros Hres Hall.
  destruct (analysis_inv _ _ _ _ Hres) as (_ & recent & Hrecent & Hsum).
  destruct (recent_subset _ _ _ Hrecent) as [Hne Hsub].
  destruct (summarize_inv _ _ _ Hsum) as (_ & _ & _ & _ & _ & _ & Havg).
  rewrite aggregate_split in Havg. cbn [snd] in Havg.
  assert (Hfive : Forall five_scores recent).
  { rewrite Forall_forall in *. intros m Hm. apply Hall, Hsub, Hm. }
  rewrite (gather_window recent Hne Hfive) in Havg.
  rewrite averages_gathered in Havg;
    try (destruct recent; [contradiction | discriminate]).
  injection Havg as <-.
  exists recent. repeat split; assumption.
Qed.

(** X12. On a history whose snapshots all carry the five labels, the
    confidences of a report are the arithmetic means over the window: the
    map has the five labels in declaration order, and each label is
    mapped to the sum of its scores in the window divided by the number
    of snapshots in the window. *)
Theorem confidence_is_window_mean (self : PerformanceMonitor)
    (now window_seconds : Z) (s : Summary) :
  get_bottleneck_analysis self now window_seconds = Ok (Report s) ->
  Forall five_scores (elems (metrics_history self)) ->
  exists recent,
    recent_metrics_of self (now - window_seconds * 1000000)%Z = Ok recent
    /\ bottleneck_confidence s
       = map (fun k => (k, mean (map (score_of k) recent))) labels.
Proof.
  intros Hres Hall.
  destruct (confidence_of_window _ _ _ _ Hres Hall)
    as (recent & Hrecent & _ & _ & Hconf).
  exists recent. split; [exact Hrecent | exact Hconf].
Qed.

Lemma confidence_is_window_mean_witness :
  exists s recent,
    get_bottleneck_analysis
      (fold_left record_metrics stale_samples small_monitor) 60500000 60
    = Ok (Report s)
    /\ recent_metrics_of
         (fold_left record_metrics stale_samples small_monitor)
         (60500000 - 60 * 1000000)%Z = Ok recent
    /\ bottleneck_confidence s
       = map (fun k => (k, mean (map (score_of k) recent))) labels.
Proof.
  eexists.
  assert (H : get_bottleneck_analysis
                (fold_left record_metrics stale_samples small_monitor)
                60500000 60 = Ok (Report _))
    by (vm_compute; reflexivity).
  assert (Hall : Forall five_scores
                   (elems (metrics_history
                             (fold_left record_metrics stale_samples
                                small_monitor))))
    by (repeat constructor).
  destruct (confidence_is_window_mean _ _ _ _ H Hall) as (recent & Hr).
  exists recent. split; [exact H | exact Hr].
Defined.

Lemma sum_from (l : list Q) :
  forall a, fold_left Qplus l a == a + fold_left Qplus l 0.
Proof.
  induction l as [|x l IH]; intros a; cbn [fold_left]; [ring|].
  rewrite (IH (a + x)), (IH (0 + x)). ring.
Qed.

Lemma sum_cons (x : Q) (l : list Q) : Py.sum (x :: l) == x + Py.sum l.
Proof.
  unfold Py.sum. cbn [fold_left]. rewrite sum_from. ring.
Qed.

Lemma inject_length_cons {A : Type} (x : A) (l : list A) :
  inject_Z (Z.of_nat (List.length (x :: l)))
  == 1 + inject_Z (Z.of_nat (List.length l)).
Proof.
  cbn [List.length]. rewrite Nat2Z.inj_succ, <- Z.add_1_l, inject_Z_plus.
  reflexivity.
Qed.

Lemma sum_bounds (l : list Q) :
  Forall (fun v => 0 <= v <= 1) l ->
  0 <= Py.sum l <= inject_Z (Z.of_nat (List.length l)).
Proof.
  induction 1 as [|x l [Hx0 Hx1] _ [IH0 IH1]].
  - unfold Py.sum. cbn. split; apply Qle_refl.
  - rewrite sum_cons, inject_length_cons. split; lra.
Qed.

Lemma mean_bounds (l : list Q) :
  l <> [] -> Forall (fun v => 0 <= v <= 1) l -> 0 <= mean l <= 1.
Proof.
  intros Hne Hall. destruct (sum_bounds l Hall) as [H0 H1].
  unfold mean. apply div_bounds; [|exact H0 | exact H1].
  destruct l as [|x l]; [contradiction|].
  rewrite inject_length_cons.
  assert (0 <= inject_Z (Z.of_nat (List.length l))).
  { change 0 with (inject_Z 0). rewrite <- Zle_Qle. lia. }
  lra.
Qed.

Lemma classified_scores (m : SystemMetrics) :
  classified m ->
  five_scores m
  /\ (forall k, In k labels -> 0 <= score_of k m <= 1)
  /\ score_of "CPU" m + score_of "Memory" m + score_of "GPU" m
     + score_of "GPU_Memory" m + score_of "None" m == 1.
Proof.
  intros (Hkeys & Hrange & Hsum & _).
  split; [exact Hkeys|].
  destruct (five_scores_shape m Hkeys) as (a & b & c & d & e & E).
  unfold score_of. rewrite E in *.
  cbn [values map snd buckets] in Hrange.
  repeat match goal with
  | H : Forall _ (_ :: _) |- _ => inversion H; clear H; subst
  end.
  split.
  - intros k [<- | [<- | [<- | [<- | [<- | []]]]]]; assumption.
  - unfold Py.sum, values, buckets in Hsum. cbn in Hsum.
    cbn [getdefault get String.eqb Ascii.eqb Bool.eqb buckets].
    rewrite <- Hsum. ring.
Qed.

Lemma window_scores_total (recent : list SystemMetrics) :
  Forall classified recent ->
  Py.sum (map (score_of "CPU") recent)
  + Py.sum (map (score_of "Memory") recent)
  + Py.sum (map (score_of "GPU") recent)
  + Py.sum (map (score_of "GPU_Memory") recent)
  + Py.sum (map (score_of "None") recent)
  == inject_Z (Z.of_nat (List.length recent)).
Proof.
  induction 1 as [|m recent Hm _ IH]; cbn [map].
  - unfold Py.sum. cbn. reflexivity.
  - destruct (classified_scores m Hm) as (_ & _ & Hone).
    rewrite !sum_cons, inject_length_cons, <- IH, <- Hone. ring.
Qed.

(** X13. Averaging keeps the scores a distribution: on a history of
    classified snapshots, the confidences of every report have the five
    labels, lie between 0 and 1 and add up to 1. *)
Theorem averaged_confidence_is_distribution (self : PerformanceMonitor)
    (now window_seconds : Z) (s : Summary) :
  get_bottleneck_analysis self now window_seconds = Ok (Report s) ->
  Forall classified (elems (metrics_history self)) ->
  keys (bottleneck_confidence s) = labels
  /\ Forall (fun v => 0 <= v <= 1) (values (bottleneck_confidence s))
  /\ Py.sum (values (bottleneck_confidence s)) == 1.
Proof.
  intros Hres Hall.
  assert (Hfive : Forall five_scores (elems (metrics_history self))).
  { eapply Forall_impl; [|exact Hall].
    intros m Hm. apply (classified_scores m Hm). }
  destruct (confidence_of_window _ _ _ _ Hres Hfive)
    as (recent & _ & Hne & Hsub & ->).
  assert (Hc : Forall classified recent).
  { rewrite Forall_forall in *. intros m Hm. apply Hall, Hsub, Hm. }
  split; [reflexivity|].
  assert (Hrange : forall k, In k labels ->
                     0 <= mean (map (score_of k) recent) <= 1).
  { intros k Hk. apply mean_bounds.
    - destruct recent; [contradiction | discriminate].
    - apply Forall_map. eapply Forall_impl; [|exact Hc].
      intros m Hm. apply (classified_scores m Hm). exact Hk. }
  split.
  - cbn [values map snd buckets].
    repeat constructor; apply Hrange; cbn; tauto.
  - pose proof (window_scores_total recent Hc) as Htotal.
    unfold mean. rewrite !length_map.
    set (n := inject_Z (Z.of_nat (List.length recent))) in *.
    assert (Hn : 0 < n).
    { subst n. destruct recent as [|m recent]; [contradiction|].
      rewrite inject_length_cons.
      assert (0 <= inject_Z (Z.of_nat (List.length recent))).
      { change 0 with (inject_Z 0). rewrite <- Zle_Qle. lia. }
      lra. }
    unfold Py.sum at 1. cbn [values map snd buckets fold_left].
    transitivity ((Py.sum (map (score_of "CPU") recent)
                   + Py.sum (map (score_of "Memory") recent)
                   + Py.sum (map (score_of "GPU") recent)
                   + Py.sum (map (score_of "GPU_Memory") recent)
                   + Py.sum (map (score_of "None") recent)) / n);
      [field; lra|].
    rewrite Htotal. field. lra.
Qed.

Lemma sample_at_classified (t : Z) : classified (sample_at t).
Proof.
  unfold classified, sample_at.
  cbn [bottleneck bottleneck_score]. split; [reflexivity|].
  split; [|split].
  - cbn [values map snd buckets]. repeat constructor; lra.
  - reflexivity.
  - exists 1. exists [("CPU", 0); ("Memory", 0); ("GPU", 0); ("GPU_Memory", 0)],
      []. split; [reflexivity|]. split; repeat constructor.
Qed.

Lemma averaged_confidence_is_distribution_witness :
  exists s,
    get_bottleneck_analysis
      (fold_left record_metrics four_samples small_monitor) 4500000 2
    = Ok (Report s)
    /\ keys (bottleneck_confidence s) = labels
    /\ Forall (fun v => 0 <= v <= 1) (values (bottleneck_confidence s))
    /\ Py.sum (values (bottleneck_confidence s)) == 1.
Proof.
  eexists.
  assert (H : get_bottleneck_analysis
                (fold_left record_metrics four_samples small_monitor)
                4500000 2 = Ok (Report _))
    by (vm_compute; reflexivity).
  split; [exact H|].
  apply (averaged_confidence_is_distribution _ _ _ _ H).
  change (Forall classified
            [sample_at 2000000; sample_at 3000000; sample_at 4000000]).
  repeat (constructor; [apply sample_at_classified|]). constructor.
Defined.

(** ** Looking up the target process *)

Lemma prefix_spec (s1 : string) :
  forall s2,
    String.prefix s1 s2 = true <-> exists post, s2 = (s1 ++ post)%string.
Proof.
  induction s1 as [|a s1 IH]; intros s2.
  - destruct s2; cbn; (split; [intros _; eexists; reflexivity | reflexivity]).
  - destruct s2 as [|b s2]; cbn [String.prefix].
    + split; [discriminate | intros (post & H); discriminate H].
    + destruct (ascii_dec a b) as [<- | Hab].
      * rewrite IH. split; intros (post & H); exists post.
        -- cbn. rewrite H. reflexivity.
        -- cbn in H. injection H as ->. reflexivity.
      * split; [discriminate|]. intros (post & H). cbn in H.
        injection H as E _. congruence.
Qed.

Lemma contains_spec (sub s : string) :
  contains sub s = true
  <-> exists pre post, s = (pre ++ sub ++ post)%string.
Proof.
  induction s as [|c s IH]; cbn [contains].
  - rewrite prefix_spec. split.
    + intros (post & H). exists ""%string, post. exact H.
    + intros (pre & post & H). destruct pre; [|discriminate H].
      exists post. exact H.
  - rewrite orb_true_iff, prefix_spec, IH. split.
    + intros [(post & H) | (pre & post & H)].
      * exists ""%string, post. exact H.
      * exists (String c pre), post. cbn. rewrite H. reflexivity.
    + intros (pre & post & H). destruct pre as [|c' pre].
      * left. exists post. exact H.
      * right. cbn in H. injection H as _ H. exists pre, post. exact H.
Qed.

Lemma append_assoc (a b c : string) :
  ((a ++ b) ++ c = a ++ b ++ c)%string.
Proof.
  induction a as [|x a IH]; cbn; [reflexivity | rewrite IH; reflexivity].
Qed.

Lemma contains_trans (a b c : string) :
  contains a b = true -> contains b c = true -> contains a c = true.
Proof.
  rewrite !contains_spec.
  intros (p1 & q1 & ->) (p2 & q2 & ->).
  exists (p2 ++ p1)%string, (q1 ++ q2)%string.
  rewrite !append_assoc. reflexivity.
Qed.

(** X14. Two of the four name patterns decide the match: a process name
    matches exactly when its lower-case form contains [bms.exe] or
    [falcon4.exe], so any name that contains [bms.exe] is taken for the
    target. *)
Theorem name_match_patterns (process_name : string) :
  name_matches process_name
  = contains "bms.exe" (lower process_name)
    || contains "falcon4.exe" (lower process_name).
Proof.
  unfold name_matches, falcon_names. cbn [existsb].
  change (lower "Falcon BMS.exe") with "falcon bms.exe".
  change (lower "bms.exe") with "bms.exe".
  change (lower "falcon4.exe") with "falcon4.exe".
  change (lower "FalconBMS.exe") with "falconbms.exe".
  set (p := lower process_name).
  assert (H1 : contains "falcon bms.exe" p = true ->
               contains "bms.exe" p = true)
    by (apply contains_trans; reflexivity).
  assert (H2 : contains "falconbms.exe" p = true ->
               contains "bms.exe" p = true)
    by (apply contains_trans; reflexivity).
  destruct (contains "falcon bms.exe" p), (contains "bms.exe" p),
    (contains "falcon4.exe" p), (contains "falconbms.exe" p);
    cbn; try reflexivity;
    solve [discriminate (H1 eq_refl) | discriminate (H2 eq_refl)].
Qed.

Lemma passed_over_not_selected (proc : ProcInfo) :
  passed_over proc -> ~ selected proc.
Proof.
  intros (n & Hn & Hcase) (n' & Hn' & Hm & He).
  rewrite Hn in Hn'. injection Hn' as <-.
  destruct Hcase; congruence.
Qed.

Lemma lookup_step_passed (proc : ProcInfo) (rest : list ProcInfo) :
  passed_over proc ->
  _find_falcon_bms_process (proc :: rest) = _find_falcon_bms_process rest.
Proof.
  intros (n & Hn & Hcase). cbn [_find_falcon_bms_process]. rewrite Hn.
  destruct Hcase as [-> | ->]; [reflexivity|].
  destruct (name_matches n); reflexivity.
Qed.

Lemma lookup_prefix (pre rest : list ProcInfo) :
  Forall passed_over pre ->
  _find_falcon_bms_process (pre ++ rest) = _find_falcon_bms_process rest.
Proof.
  induction 1 as [|proc pre Hp _ IH]; [reflexivity|].
  cbn [app]. rewrite (lookup_step_passed proc _ Hp). exact IH.
Qed.

Lemma lookup_cases (procs : list ProcInfo) :
  (Forall passed_over procs /\ _find_falcon_bms_process procs = NotFound)
  \/ exists pre proc post,
       procs = (pre ++ proc :: post)%list
       /\ Forall passed_over pre
       /\ ((selected proc
            /\ _find_falcon_bms_process procs = Found (info_pid proc))
           \/ (info_name proc = None
               /\ _find_falcon_bms_process procs = AttributeError)).
Proof.
  induction procs as [|proc procs IH].
  - left. split; [constructor | reflexivity].
  - destruct (info_name proc) as [n|] eqn:Hn.
    + destruct (name_matches n) eqn:Hm; [destruct (process_exists proc) eqn:He|].
      * right. exists [], proc, procs. split; [reflexivity|].
        split; [constructor|]. left. split.
        -- exists n. repeat split; assumption.
        -- cbn [_find_falcon_bms_process]. rewrite Hn, Hm, He. reflexivity.
      * assert (Hp : passed_over proc) by (exists n; auto).
        rewrite (lookup_step_passed proc procs Hp).
        destruct IH as [[Hall Hr] | (pre & x & post & -> & Hpre & Hx)].
        -- left. split; [constructor; assumption | exact Hr].
        -- right. exists (proc :: pre), x, post. split; [reflexivity|].
           split; [constructor; assumption|].
           rewrite (lookup_prefix pre _ Hpre) in *. exact Hx.
      * assert (Hp : passed_over proc) by (exists n; auto).
        rewrite (lookup_step_passed proc procs Hp).
        destruct IH as [[Hall Hr] | (pre & x & post & -> & Hpre & Hx)].
        -- left. split; [constructor; assumption | exact Hr].
        -- right. exists (proc :: pre), x, post. split; [reflexivity|].
           split; [constructor; assumption|].
           rewrite (lookup_prefix pre _ Hpre) in *. exact Hx.
    + right. exists [], proc, procs. split; [reflexivity|].
      split; [constructor|]. right. split; [exact Hn|].
      cbn [_find_falcon_bms_process]. rewrite Hn. reflexivity.
Qed.

Lemma lookup_selected (proc : ProcInfo) (rest : list ProcInfo) :
  selected proc ->
  _find_falcon_bms_process (proc :: rest) = Found (info_pid proc).
Proof.
  intros (n & Hn & Hm & He). cbn [_find_falcon_bms_process].
  rewrite Hn, Hm, He. reflexivity.
Qed.

Lemma lookup_nameless (proc : ProcInfo) (rest : list ProcInfo) :
  info_name proc = None ->
  _find_falcon_bms_process (proc :: rest) = AttributeError.
Proof.
  intros Hn. cbn [_find_falcon_bms_process]. rewrite Hn. reflexivity.
Qed.

(** X16. The first match wins: the lookup returns the handle of a process
    exactly when that process has a matching name and still exists while
    every process listed before it has a name and either does not match
    or has vanished. *)
Theorem lookup_returns_first_match (procs : list ProcInfo) (pid : Z) :
  _find_falcon_bms_process procs = Found pid
  <-> exists pre proc post,
        procs = (pre ++ proc :: post)%list
        /\ Forall passed_over pre
        /\ selected proc
        /\ info_pid proc = pid.
Proof.
  split.
  - intros Hr.
    destruct (lookup_cases procs)
      as [[_ Hn] | (pre & proc & post & E & Hpre & [[Hs Hf] | [_ Ha]])];
      try congruence.
    rewrite Hr in Hf. injection Hf as ->.
    exists pre, proc, post. repeat split; assumption.
  - intros (pre & proc & post & -> & Hpre & Hs & <-).
    rewrite (lookup_prefix pre _ Hpre). apply lookup_selected. exact Hs.
Qed.

(** X17. The lookup returns [None] exactly when every listed process has
    a name and either does not match or has vanished. *)
Theorem lookup_finds_nothing (procs : list ProcInfo) :
  _find_falcon_bms_process procs = NotFound <-> Forall passed_over procs.
Proof.
  split.
  - intros Hr.
    destruct (lookup_cases procs)
      as [[Hall _] | (pre & proc & post & E & Hpre & [[_ Hf] | [_ Ha]])];
      solve [exact Hall | congruence].
  - intros Hall. rewrite <- (app_nil_r procs).
    rewrite (lookup_prefix procs [] Hall). reflexivity.
Qed.

(** X18. A process without a readable name breaks the lookup: the call
    ends in the uncaught [AttributeError] exactly when such a process is
    listed and every process before it has a name and either does not
    match or has vanished. *)
Theorem lookup_raises_on_nameless (procs : list ProcInfo) :
  _find_falcon_bms_process procs = AttributeError
  <-> exists pre proc post,
        procs = (pre ++ proc :: post)%list
        /\ Forall passed_over pre
        /\ info_name proc = None.
Proof.
  split.
  - intros Hr.
    destruct (lookup_cases procs)
      as [[_ Hn] | (pre & proc & post & E & Hpre & [[_ Hf] | [Hnone _]])];
      try congruence.
    exists pre, proc, post. repeat split; assumption.
  - intros (pre & proc & post & -> & Hpre & Hnone).
    rewrite (lookup_prefix pre _ Hpre). apply lookup_nameless. exact Hnone.
Qed.

Example lookup_on_process_table :
  _find_falcon_bms_process process_table = Found 977
  /\ _find_falcon_bms_process (skipn 3 process_table) = AttributeError
  /\ _find_falcon_bms_process (firstn 2 process_table) = NotFound.
Proof. repeat split; reflexivity. Qed.

(** ** The console display *)

Lemma insert_desc_perm {A : Type} (key : A -> Q) (x : A) (l : list A) :
  Permutation (insert_desc key x l) (x :: l).
Proof.
  induction l as [|y l IH]; cbn [insert_desc]; [reflexivity|].
  destruct (gt (key y) (key x)); [|reflexivity].
  rewrite IH. apply perm_swap.
Qed.

Lemma sorted_desc_perm {A : Type} (key : A -> Q) (l : list A) :
  Permutation (sorted_desc key l) l.
Proof.
  induction l as [|x l IH]; cbn [sorted_desc]; [reflexivity|].
  rewrite insert_desc_perm, IH. reflexivity.
Qed.

Lemma insert_desc_descending {A : Type} (key : A -> Q) (x : A) (l : list A) :
  descending key l -> descending key (insert_desc key x l).
Proof.
  unfold descending.
  induction 1 as [|y l Hl IH Hy]; cbn [insert_desc].
  - repeat constructor.
  - destruct (gt (key y) (key x)) eqn:E; qprop.
    + constructor; [exact IH|].
      rewrite insert_desc_perm.
      constructor; [apply Qlt_le_weak; exact E | exact Hy].
    + constructor; [constructor; assumption|].
      constructor; [exact E|].
      eapply Forall_impl; [|exact Hy].
      intros z Hz. cbv beta in *. eapply Qle_trans; eassumption.
Qed.

Lemma sorted_desc_descending {A : Type} (key : A -> Q) (l : list A) :
  descending key (sorted_desc key l).
Proof.
  induction l as [|x l IH]; cbn [sorted_desc]; [constructor|].
  apply insert_desc_descending. exact IH.
Qed.

Lemma for_each_prints {A : Type} (shown : A -> bool) (line : A -> string)
    (l : list A) :
  forall out,
    for_each l (fun x => if shown x then print (line x) else lift (Ok tt)) out
    = ((out ++ map line (filter shown l))%list, Ok tt).
Proof.
  induction l as [|x l IH]; intros out; cbn [for_each filter].
  - unfold lift. rewrite app_nil_r. reflexivity.
  - unfold dbind. destruct (shown x); cbn [print lift map].
    + rewrite IH, <- app_assoc. reflexivity.
    + rewrite IH. reflexivity.
Qed.

Lemma confidence_lines_eq (confidence : dict Q) (out : list string) :
  confidence_lines confidence out
  = ((out ++ map confidence_line
              (filter (fun it => gt (snd it) 0.1)
                 (sorted_desc (fun x => snd x) (items confidence))))%list,
     Ok tt).
Proof.
  unfold confidence_lines.
  apply (for_each_prints (fun it => gt (snd it) 0.1) confidence_line).
Qed.

Lemma recommendation_lines_eq (recs : list string) (out : list string) :
  recommendation_lines recs out
  = ((out ++ map recommendation_line (enumerate 1 (firstn 3 recs)))%list,
     Ok tt).
Proof.
  unfold recommendation_lines.
  rewrite <- (filter_true (enumerate 1 (firstn 3 recs))) at 2.
  apply (for_each_prints (fun _ => true) recommendation_line).
Qed.

Lemma current_metrics_cases (self : PerformanceMonitor) :
  (elems (metrics_history self) = [] /\ get_current_metrics self = None)
  \/ (elems (metrics_history self) <> []
      /\ exists current,
           get_current_metrics self = Some current
           /\ last_item (elems (metrics_history self)) = Ok current).
Proof.
  unfold get_current_metrics.
  destruct (elems (metrics_history self)) as [|x l] eqn:E.
  - left. split; reflexivity.
  - right. split; [discriminate|].
    destruct (last_item_total (x :: l)) as (current & Hc); [discriminate|].
    exists current. cbn [truthy]. rewrite Hc. split; reflexivity.
Qed.

Section ConsoleFacts.
Variable strftime_HMS : Z -> string.
Variable str_exn : exn -> string.

(** X20. A pass of the display on a current snapshot without per-core
    readings shows no metric, label or recommendation, although such a
    snapshot is classified and gets its recommendations: the pass ends in
    an exception, at the latest in the unguarded [max] of the CPU line,
    having printed no more than the frame of the header, its title and
    the title of the system block; the handler adds the error line. *)
Theorem display_on_snapshot_without_cores (self : PerformanceMonitor)
    (now : Z) (current : SystemMetrics) :
  get_current_metrics self = Some current ->
  cpu_per_core current = [] ->
  exists shown rest e,
    display_try strftime_HMS self now [] = (shown, Raise e)
    /\ (shown ++ rest)%list = header_block strftime_HMS current
    /\ display_pass strftime_HMS str_exn self now
       = (shown ++ [("Display error: " ++ str_exn e)%string])%list.
Proof.
  intros Hcur Hempty.
  destruct (current_metrics_cases self) as [[_ Hn] | (Hne & _)];
    [congruence|].
  destruct (representable_dec now 30) as [Hrep|Hrep].
  - destruct (analysis_reports self now 30 Hne Hrep) as (summary & Ha).
    exists (header_block strftime_HMS current), [], ValueError.
    assert (Hd : display_try strftime_HMS self now []
                 = (header_block strftime_HMS current, Raise ValueError)).
    { unfold display_try. rewrite Hcur, Ha, Hempty. reflexivity. }
    split; [exact Hd|]. split; [apply app_nil_r|].
    unfold display_pass. rewrite Hd. reflexivity.
  - pose proof (analysis_overflows self now 30 Hne Hrep) as Ha.
    exists [], (header_block strftime_HMS current), OverflowError.
    assert (Hd : display_try strftime_HMS self now []
                 = ([], Raise OverflowError)).
    { unfold display_try. rewrite Hcur, Ha. reflexivity. }
    split; [exact Hd|]. split; [reflexivity|].
    unfold display_pass. rewrite Hd. reflexivity.
Qed.
End ConsoleFacts.

Lemma display_on_snapshot_without_cores_witness :
  exists shown rest e,
    display_try clock no_cores_monitor autumn_2026 [] = (shown, Raise e)
    /\ (shown ++ rest)%list
       = header_block clock
           (set_classification no_cores_snapshot "CPU" (buckets 1 0 0 0 0))
    /\ display_pass clock exception_text no_cores_monitor autumn_2026
       = (shown ++ [("Display error: " ++ exception_text e)%string])%list.
Proof.
  apply (display_on_snapshot_without_cores clock exception_text
           no_cores_monitor autumn_2026
           (set_classification no_cores_snapshot "CPU" (buckets 1 0 0 0 0)));
    reflexivity.
Defined.

Example display_without_cores :
  display_pass clock exception_text no_cores_monitor autumn_2026
  = [str_mul "=" 80;
     "FALCON BMS PERFORMANCE MONITOR - 12:00:00";
     str_mul "=" 80;
     "
📊 SYSTEM METRICS:";
     "Display error: max() arg is an empty sequence"].
Proof. reflexivity. Qed.

(** X22. The display shows at most three recommendations, numbered from
    1: for the labels CPU, Memory, GPU and GPU_Memory the fourth line of
    the generator is never shown, for any other label every line is. *)
Theorem displayed_recommendations (self : PerformanceMonitor)
    (metrics : SystemMetrics) :
  exists recs,
    _get_recommendations self metrics = Ok recs
    /\ recommendation_lines recs []
       = (map recommendation_line (enumerate 1 (firstn 3 recs)), Ok tt)
    /\ (In (bottleneck metrics) ["CPU"; "Memory"; "GPU"; "GPU_Memory"] ->
        exists r1 r2 r3 r4,
          recs = [r1; r2; r3; r4]
          /\ fst (recommendation_lines recs [])
             = [("  1. " ++ r1)%string; ("  2. " ++ r2)%string;
                ("  3. " ++ r3)%string])
    /\ (~ In (bottleneck metrics) ["CPU"; "Memory"; "GPU"; "GPU_Memory"] ->
        fst (recommendation_lines recs [])
        = map recommendation_line (enumerate 1 recs)).
Proof.
  unfold _get_recommendations.
  destruct (max_core_usage_total metrics) as (mc & ->). cbn [bind].
  repeat match goal with
  | |- context [if String.eqb ?a ?b then _ else _] =>
      destruct (String.eqb_spec a b)
  end; split_gt; eexists; (split; [reflexivity|]);
    rewrite recommendation_lines_eq; (split; [reflexivity|]);
    cbn [app In fst];
    (split;
     [ intros H;
       first [ do 4 eexists; split; reflexivity
             | exfalso; intuition congruence ]
     | intros H;
       first [ reflexivity | exfalso; apply H; auto 6 ] ]).
Qed.

Lemma descending_filter {A : Type} (key : A -> Q) (f : A -> bool)
    (l : list A) :
  descending key l -> descending key (filter f l).
Proof.
  unfold descending. induction 1 as [|x l Hl IH Hx]; cbn [filter];
    [constructor|].
  destruct (f x); [|exact IH].
  constructor; [exact IH|].
  rewrite Forall_forall in *. intros y Hy. apply filter_In in Hy.
  apply Hx. tauto.
Qed.

(** X23. The confidence block of a distribution: for a confidence map
    over the five labels whose scores lie between 0 and 1 and add up to 1,
    the display prints one line for each label whose confidence is above
    0.1 and for no other, at least one line, in order of decreasing
    confidence. *)
Theorem displayed_confidences (confidence : dict Q) :
  keys confidence = labels ->
  Forall (fun v => 0 <= v <= 1) (values confidence) ->
  Py.sum (values confidence) == 1 ->
  exists shown,
    confidence_lines confidence [] = (map confidence_line shown, Ok tt)
    /\ shown <> []
    /\ descending (fun it => snd it) shown
    /\ (forall it, In it shown <-> In it (items confidence) /\ 0.1 < snd it).
Proof.
  intros Hkeys Hrange Hsum.
  exists (filter (fun it => gt (snd it) 0.1)
            (sorted_desc (fun x => snd x) (items confidence))).
  split; [apply confidence_lines_eq|].
  assert (Hin : forall it,
            In it (filter (fun it => gt (snd it) 0.1)
                     (sorted_desc (fun x => snd x) (items confidence)))
            <-> In it (items confidence) /\ 0.1 < snd it).
  { intros it. rewrite filter_In, gt_true. split; intros [H1 H2].
    - split; [|exact H2].
      apply (Permutation_in _ (sorted_desc_perm _ _) H1).
    - split; [|exact H2].
      apply (Permutation_in _ (Permutation_sym (sorted_desc_perm _ _)) H1). }
  split; [|split; [|exact Hin]].
  - assert (Hbig : exists it, In it (items confidence) /\ 0.1 < snd it).
    { unfold keys, labels in Hkeys. unfold items.
      destruct confidence as [|[k1 a] [|[k2 b] [|[k3 c] [|[k4 d]
        [|[k5 e] [|x l]]]]]]; cbn [map fst] in Hkeys; try discriminate.
      unfold Py.sum in Hsum. cbn in Hsum.
      destruct (Qlt_le_dec 0.1 a); [exists (k1, a); cbn; tauto|].
      destruct (Qlt_le_dec 0.1 b); [exists (k2, b); cbn; tauto|].
      destruct (Qlt_le_dec 0.1 c); [exists (k3, c); cbn; tauto|].
      destruct (Qlt_le_dec 0.1 d); [exists (k4, d); cbn; tauto|].
      destruct (Qlt_le_dec 0.1 e); [exists (k5, e); cbn; tauto|].
      exfalso. lra. }
    destruct Hbig as (it & Hit). apply Hin in Hit.
    intros E. rewrite E in Hit. exact Hit.
  - apply descending_filter, sorted_desc_descending.
Qed.

Lemma displayed_confidences_witness :
  exists shown,
    confidence_lines (buckets 0.5 0.05 0.3 0.15 0) []
    = (map confidence_line shown, Ok tt)
    /\ shown <> []
    /\ descending (fun it => snd it) shown
    /\ (forall it,
          In it shown
          <-> In it (items (buckets 0.5 0.05 0.3 0.15 0)) /\ 0.1 < snd it).
Proof.
  apply (displayed_confidences (buckets 0.5 0.05 0.3 0.15 0)).
  - reflexivity.
  - cbn [values map snd buckets]. repeat constructor; lra.
  - reflexivity.
Defined.

Example confidence_bars :
  fst (confidence_lines (buckets 0.5 0.05 0.3 0.15 0) [])
  = ["    CPU          50.0% ██████████";
     "    GPU          30.0% ██████";
     "    GPU_Memory   15.0% ███"].
Proof. reflexivity. Qed.

(** ** The GPU readings *)

Lemma gpu_query_failed (available : bool) (gpus : result (list GPU)) :
  available = false \/ gpus = Ok [] \/ (exists e, gpus = Raise e) ->
  _get_gpu_metrics available gpus = (0.0, 0.0, 0.0, 0.0).
Proof.
  unfold _get_gpu_metrics.
  intros [-> | [-> | (e & ->)]]; [reflexivity | |];
    destruct available; reflexivity.
Qed.

(** X24. A GPU that cannot be read never becomes the bottleneck: when
    the library is missing, the query raises or no device is listed, the
    collected snapshot carries zeros for the four GPU readings, and its
    label is neither GPU nor GPU_Memory. *)
Theorem unread_gpu_is_no_bottleneck (self : PerformanceMonitor)
    (r : Readings) :
  initialised self ->
  gpu_available self = false \/ r_gpus r = Ok []
  \/ (exists e, r_gpus r = Raise e) ->
  exists snapshot,
    _collect_metrics self r = Ok snapshot
    /\ gpu_utilization snapshot = 0.0
    /\ gpu_memory_percent snapshot = 0.0
    /\ gpu_memory_used_gb snapshot = 0.0
    /\ gpu_temperature snapshot = 0.0
    /\ bottleneck snapshot <> "GPU"
    /\ bottleneck snapshot <> "GPU_Memory".
Proof.
  intros Hinit Hfail. rewrite collect_eq.
  assert (Hg : gpu_utilization (reading_metrics self r) = 0.0
               /\ gpu_memory_percent (reading_metrics self r) = 0.0
               /\ gpu_memory_used_gb (reading_metrics self r) = 0.0
               /\ gpu_temperature (reading_metrics self r) = 0.0).
  { unfold reading_metrics. rewrite (gpu_query_failed _ _ Hfail).
    destruct (r_falcon r) as [[cpu [rss|]]|]; repeat split; reflexivity. }
  destruct Hg as (Hu & Hm & Hused & Ht).
  set (m := reading_metrics self r) in *.
  destruct (classifier_run self m Hinit)
    as (c & me & g & gm & n & label & R).
  rewrite (run_result _ _ _ _ _ _ _ _ R). cbn [bind fst snd].
  eexists. split; [reflexivity|].
  cbn [set_classification gpu_utilization gpu_memory_percent
       gpu_memory_used_gb gpu_temperature bottleneck].
  repeat (split; [assumption|]).
  destruct (max_core_usage_total m) as (mc & Hmc).
  destruct (run_closed _ _ _ _ _ _ _ mc _ Hinit Hmc R)
    as (_ & _ & Eg & Egm).
  assert (Zg : g == 0).
  { rewrite Eg. unfold gpu_bucket. rewrite Hu.
    destruct (gpu_available self); reflexivity. }
  assert (Zgm : gm == 0).
  { rewrite Egm. unfold gpu_memory_bucket. rewrite Hm.
    destruct (gpu_available self); reflexivity. }
  split; intros ->;
    (destruct (resource_label_raw _ _ _ _ _ _ _ _ R)
       as (_ & v & Hv & H03 & _); [discriminate|]);
    cbn in Hv; injection Hv as <-; lra.
Qed.

Lemma unread_gpu_is_no_bottleneck_witness :
  exists snapshot,
    _collect_metrics default_monitor busy_readings = Ok snapshot
    /\ gpu_utilization snapshot = 0.0
    /\ gpu_memory_percent snapshot = 0.0
    /\ gpu_memory_used_gb snapshot = 0.0
    /\ gpu_temperature snapshot = 0.0
    /\ bottleneck snapshot <> "GPU"
    /\ bottleneck snapshot <> "GPU_Memory".
Proof.
  apply (unread_gpu_is_no_bottleneck default_monitor busy_readings).
  - reflexivity.
  - right. right. exists ValueError. reflexivity.
Defined.
